(** * aliyun-live-go-sdk: the error contract and the Live controller

    A shallow embedding of [aliyun/response.go] (the [ErrorResponse] error
    contract) and of [live/live.go] (the [Live] controller facade), with the
    pointer structure of the Go code kept explicit: requests, argument bags,
    stream credentials and controllers live in a store and are referred to
    by location, so that sharing between a controller's template request
    and its clones can be stated and proved. *)

From Stdlib Require Import Ascii String.
From stdpp Require Import base option strings pretty gmap fin_maps.

Local Open Scope Z_scope.

(** Line feed, the [\n] of the Go string literals. *)
Definition LF : string := String "010"%char "".

(** Go's [strings.Contains]: [sub] occurs in [s] as a contiguous block. *)
Definition Contains (s sub : string) : Prop :=
  ∃ pre post : string, s = pre +:+ sub +:+ post.

(** ** Package [fmt]: the two verbs the repository uses *)

Inductive fmt_arg : Type :=
  | ArgString (s : string)
  | ArgInt (n : Z).

(** [%s] with a string operand prints the string, [%d] with an integer
    operand prints its decimal rendering (a leading [-] for negatives, no
    padding).  A verb with no operand left prints [%!v(MISSING)], one with an
    operand of the other kind is left as written; the source has neither. *)
Fixpoint Sprintf (format : string) (a : list fmt_arg) : string :=
  match format with
  | "" => ""
  | String "%" (String v rest) =>
      match a with
      | [] => String "%" (String "!" (String v ("(MISSING)" +:+ Sprintf rest [])))
      | x :: a' =>
          match v, x with
          | "s"%char, ArgString s => s +:+ Sprintf rest a'
          | "d"%char, ArgInt n => pretty n +:+ Sprintf rest a'
          | _, _ => String "%" (String v (Sprintf rest a'))
          end
      end
  | String c rest => String c (Sprintf rest a)
  end.

(** ** Package [aliyun] *)

Module aliyun.

Record Response : Type := mkResponse { Response_RequestId : string }.

(** [StatusCode] is a Go [int]; every machine integer is a [Z]. *)
Record ErrorResponse : Type := mkErrorResponse {
  RequestId : string;
  Recommend : string;
  HostId : string;
  Code : string;
  Message : string;
  StatusCode : Z
}.

Definition Error_format : string :=
  "Aliyun API Error:" +:+ LF +:+ " RequestId: %s" +:+ LF +:+
  " Status Code: %d" +:+ LF +:+ " Code: %s" +:+ LF +:+
  " Message: %s" +:+ LF.

Definition Error (e : ErrorResponse) : string :=
  Sprintf Error_format
    [ArgString (RequestId e); ArgInt (StatusCode e);
     ArgString (Code e); ArgString (Message e)].

End aliyun.

(** ** The store

    Go pointers are locations; [nil] is [None] where the source tests for it.
    Every object the controller shares by pointer has its own heap. *)

Definition loc : Type := positive.
Bind Scope positive_scope with loc.

(** The Go [error] interface, with the dynamic types that reach the caller:
    [errors.New] texts, vendor error payloads and transport failures. *)
Inductive error : Type :=
  | errors_New (text : string)
  | vendorError (e : aliyun.ErrorResponse)
  | transportError (text : string).

(** Modelled from the spec: the [Request] struct of the live package is not
    among the sources; live.go reads and writes its fields [Action],
    [DomainName] and [AppName], and spec 3 gives it a "mutable key-value
    argument bag".  The bag is a Go map, a reference: [Args] is its
    location. *)
Record Request : Type := mkRequest {
  Action : string;
  DomainName : string;
  AppName : string;
  Args : loc
}.

(** Modelled from the spec: [StreamCredentials] is not among the sources;
    spec 3 lists a signing key and an expiry policy. *)
Record StreamCredentials : Type := mkStreamCredentials {
  signingKey : string;
  expiryPolicy : Z
}.

(** Modelled from the spec: [aliyun.Client] is not among the sources; the
    controller only holds it, toggles its debug flag and calls [Query]. *)
Record Client : Type := mkClient {
  accessKeyId : string;
  accessKeySecret : string;
  debug : bool
}.

Record Live : Type := mkLive {
  rpc : loc;
  liveReq : loc;
  streamCert : option loc;
  videoCenterDns : string
}.

Module Stream.
Record t : Type := mk {
  domainName : string;
  appName : string;
  StreamName : string;
  videoCenterDns : string;
  streamCert : option loc;
  signOn : bool;
  live : loc
}.
End Stream.

(** What one [Query] puts on the network: the client it went through and the
    request as it was at that moment. *)
Record Sent : Type := mkSent {
  via : loc;
  sentAction : string;
  sentDomainName : string;
  sentAppName : string;
  sentArgs : gmap string string
}.

Record Store : Type := mkStore {
  lives : gmap loc Live;
  clients : gmap loc Client;
  requests : gmap loc Request;
  bags : gmap loc (gmap string string);
  credentials : gmap loc StreamCredentials;
  network : list Sent
}.

Definition emptyStore : Store := mkStore ∅ ∅ ∅ ∅ ∅ [].

(** ** Computations over the store

    [None] is a Go panic (a dereference of a pointer that holds nothing). *)

Definition M (A : Type) : Type := Store → option (A * Store).

Definition ret {A : Type} (a : A) : M A := λ σ, Some (a, σ).

Definition bind {A B : Type} (m : M A) (k : A → M B) : M B :=
  λ σ, match m σ with
       | Some (a, σ') => k a σ'
       | None => None
       end.

Definition panic {A : Type} : M A := λ _, None.

Notation "'do' x <- m ; k" := (bind m (λ x, k))
  (at level 10, x name, m at level 100, k at level 200).
Notation "'do' ' p <- m ; k" := (bind m (λ x, match x with p => k end))
  (at level 10, p pattern, m at level 100, k at level 200).
Notation "m ;; k" := (bind m (λ _, k))
  (at level 100, k at level 200, right associativity).

Definition get : M Store := λ σ, Some (σ, σ).
Definition put (σ : Store) : M unit := λ _, Some (tt, σ).

Definition orPanic {A : Type} (o : option A) : M A :=
  match o with Some a => ret a | None => panic end.

Definition loadLive (l : loc) : M Live := do σ <- get; orPanic (lives σ !! l).
Definition loadClient (c : loc) : M Client := do σ <- get; orPanic (clients σ !! c).
Definition loadRequest (p : loc) : M Request := do σ <- get; orPanic (requests σ !! p).
Definition loadBag (b : loc) : M (gmap string string) := do σ <- get; orPanic (bags σ !! b).
Definition loadCredentials (c : loc) : M StreamCredentials :=
  do σ <- get; orPanic (credentials σ !! c).

Definition setLives (σ : Store) (m : gmap loc Live) : Store :=
  mkStore m (clients σ) (requests σ) (bags σ) (credentials σ) (network σ).
Definition setClients (σ : Store) (m : gmap loc Client) : Store :=
  mkStore (lives σ) m (requests σ) (bags σ) (credentials σ) (network σ).
Definition setRequests (σ : Store) (m : gmap loc Request) : Store :=
  mkStore (lives σ) (clients σ) m (bags σ) (credentials σ) (network σ).
Definition setBags (σ : Store) (m : gmap loc (gmap string string)) : Store :=
  mkStore (lives σ) (clients σ) (requests σ) m (credentials σ) (network σ).
Definition setCredentials (σ : Store) (m : gmap loc StreamCredentials) : Store :=
  mkStore (lives σ) (clients σ) (requests σ) (bags σ) m (network σ).
Definition setNetwork (σ : Store) (n : list Sent) : Store :=
  mkStore (lives σ) (clients σ) (requests σ) (bags σ) (credentials σ) n.

Definition storeLive (l : loc) (v : Live) : M unit :=
  do σ <- get; put (setLives σ (<[l := v]> (lives σ))).
Definition storeClient (c : loc) (v : Client) : M unit :=
  do σ <- get; put (setClients σ (<[c := v]> (clients σ))).
Definition storeRequest (p : loc) (v : Request) : M unit :=
  do σ <- get; put (setRequests σ (<[p := v]> (requests σ))).
Definition storeBag (b : loc) (v : gmap string string) : M unit :=
  do σ <- get; put (setBags σ (<[b := v]> (bags σ))).
Definition storeCredentials (c : loc) (v : StreamCredentials) : M unit :=
  do σ <- get; put (setCredentials σ (<[c := v]> (credentials σ))).

(** [&T{...}] and [make(map...)]: the new object sits at a location no
    object of its heap occupies. *)
Definition newLive (v : Live) : M loc :=
  do σ <- get; let l := fresh (dom (lives σ)) in storeLive l v;; ret l.
Definition newClient (v : Client) : M loc :=
  do σ <- get; let c := fresh (dom (clients σ)) in storeClient c v;; ret c.
Definition newRequest (v : Request) : M loc :=
  do σ <- get; let p := fresh (dom (requests σ)) in storeRequest p v;; ret p.
Definition newBag (v : gmap string string) : M loc :=
  do σ <- get; let b := fresh (dom (bags σ)) in storeBag b v;; ret b.
Definition newCredentials (v : StreamCredentials) : M loc :=
  do σ <- get; let c := fresh (dom (credentials σ)) in storeCredentials c v;; ret c.

Definition send (s : Sent) : M unit :=
  do σ <- get; put (setNetwork σ (network σ ++ [s])).

(** ** What the sources leave outside

    The collaborators of live.go that are not among the sources: the time
    type and its formatter of package [util], the action constants of the
    package, the transport behind [aliyun.Client.Query], and the vendor's
    auth-key algorithm.  The controller is verified for every choice of
    them. *)
Class Collaborators : Type := {
  Time : Type;
  (** what a response target holds; [Query] decodes into it *)
  Resp : Type;
  GetISO8601TimeStamp : Time → string;
  DescribeLiveStreamsPublishListAction : string;
  DescribeLiveStreamsOnlineListAction : string;
  DescribeLiveStreamsBlockListAction : string;
  DescribeLiveStreamsControlHistoryAction : string;
  ForbidLiveStreamAction : string;
  ResumeLiveStreamAction : string;
  (** the remote end: from the traffic so far, the request now sent and the
      response target, the decoded target and the error of the round trip *)
  roundTrip : list Sent → Sent → Resp → Resp * option error;
  (** the auth key, from the path signed, the expiry asked for and the
      credentials *)
  vendorAuthKey : string → option Z → StreamCredentials → string
}.

(** Modelled from the spec: [global.EmptyString] of package [util/global] is
    not among the sources; spec 7 calls the rejected input the "empty
    required app name". *)
Definition global_EmptyString : string := "".

(** Modelled from the spec: the constant [DefaultVideoCenter] is not among
    the sources; the comment on [Live.videoCenterDns] names this host as the
    live centre. *)
Definition DefaultVideoCenter : string := "video-center.alivecdn.com".

(** ** Package [live] *)

Section live.
Context `{Collaborators}.

(** Modelled from the spec: [NewLiveRequest] is not among the sources; it
    builds the template of spec 3 from an action, a domain and an app name,
    with an argument bag of its own. *)
Definition NewLiveRequest (action domainName appName : string) : M loc :=
  do b <- newBag ∅;
  newRequest (mkRequest action domainName appName b).

(** Modelled from the spec: [Request.SetArgs] is not among the sources;
    spec 4.1: "stores a parameter, overwriting any existing value for that
    key". *)
Definition SetArgs (req : loc) (key value : string) : M unit :=
  do r <- loadRequest req;
  do b <- loadBag (Args r);
  storeBag (Args r) (<[key := value]> b).

(** Modelled from the spec: [Request.Clone] is not among the sources; spec
    4.1: "returns a deep copy (independent argument bag)": a new request
    with the fields of the old one and a new bag with the same entries. *)
Definition Clone (req : loc) : M loc :=
  do r <- loadRequest req;
  do b <- loadBag (Args r);
  do b' <- newBag b;
  newRequest (mkRequest (Action r) (DomainName r) (AppName r) b').

(** Modelled from the spec: [StreamCredentials.Clone] is not among the
    sources; spec 3: "clone semantics (value, not reference, to avoid
    aliasing across streams)". *)
Definition StreamCredentials_Clone (c : loc) : M loc :=
  do v <- loadCredentials c;
  newCredentials v.

(** Modelled from the spec: [aliyun.NewClientCtx] is not among the
    sources; the client keeps the access key pair, debugging off. *)
Definition NewClientCtx (keyId keySecret : string) : M loc :=
  newClient (mkClient keyId keySecret false).

(** Modelled from the spec: [aliyun.Client.SetDebug] is not among the
    sources. *)
Definition Client_SetDebug (c : loc) (d : bool) : M unit :=
  do v <- loadClient c;
  storeClient c (mkClient (accessKeyId v) (accessKeySecret v) d).

(** Modelled from the spec: [aliyun.Client.Query] is not among the
    sources; spec 4.3: it "sends the signed request, reads the HTTP
    response, and either decodes into respTarget on success ... or decodes
    into an ErrorResponse and returns it as an error".  Each call is one
    entry of [network]. *)
Definition Query (c : loc) (req : loc) (resp : Resp) : M (Resp * option error) :=
  do _ <- loadClient c;
  do r <- loadRequest req;
  do b <- loadBag (Args r);
  do σ <- get;
  let s := mkSent c (Action r) (DomainName r) (AppName r) b in
  send s;;
  ret (roundTrip (network σ) s resp).

(** The context only reaches the client, and of the request credentials
    the model keeps the key pair. *)
Definition NewLiveWithCtx (keyId keySecret : string) (domainName appName : string)
    (streamCert : option loc) : M loc :=
  do c <- NewClientCtx keyId keySecret;
  do r <- NewLiveRequest "" domainName appName;
  newLive (mkLive c r streamCert DefaultVideoCenter).

Definition NewLive (keyId keySecret : string) (domainName appName : string)
    (streamCert : option loc) : M loc :=
  NewLiveWithCtx keyId keySecret domainName appName streamCert.

Definition SetAction (l : loc) (action : string) : M loc :=
  do L <- loadLive l;
  do r <- loadRequest (liveReq L);
  storeRequest (liveReq L) (mkRequest action (DomainName r) (AppName r) (Args r));;
  ret l.

Definition SetAppName (l : loc) (appname : string) : M loc :=
  do L <- loadLive l;
  do r <- loadRequest (liveReq L);
  storeRequest (liveReq L) (mkRequest (Action r) (DomainName r) appname (Args r));;
  ret l.

Definition GetAppName (l : loc) : M string :=
  do L <- loadLive l;
  do r <- loadRequest (liveReq L);
  ret (AppName r).

Definition GetDomainName (l : loc) : M string :=
  do L <- loadLive l;
  do r <- loadRequest (liveReq L);
  ret (DomainName r).

Definition SetStreamCredentials (l : loc) (cert : option loc) : M loc :=
  do L <- loadLive l;
  storeLive l (mkLive (rpc L) (liveReq L) cert (videoCenterDns L));;
  ret l.

Definition SetDebug (l : loc) (d : bool) : M loc :=
  do L <- loadLive l;
  Client_SetDebug (rpc L) d;;
  ret l.

Definition SetVideoCenter (l : loc) (dns : string) : M loc :=
  do L <- loadLive l;
  storeLive l (mkLive (rpc L) (liveReq L) (streamCert L) dns);;
  ret l.

Definition GetStream (l : loc) (streamName : string) : M (option Stream.t) :=
  if decide ("" = streamName) then ret None
  else
    do L <- loadLive l;
    do creds <-
      match streamCert L with
      | Some c => do c' <- StreamCredentials_Clone c; ret (Some c')
      | None => ret None
      end;
    do r <- loadRequest (liveReq L);
    ret (Some (Stream.mk (DomainName r) (AppName r) streamName
                 (videoCenterDns L) creds
                 (bool_decide (streamCert L ≠ None)) l)).

Definition cloneRequest (l : loc) (action : string) : M loc :=
  do l' <- SetAction l action;
  do L <- loadLive l';
  Clone (liveReq L).

Definition StreamsPublishList (l : loc) (startTime endTime : Time) (resp : Resp)
    : M (Resp * option error) :=
  do req <- cloneRequest l DescribeLiveStreamsPublishListAction;
  SetArgs req "StartTime" (GetISO8601TimeStamp startTime);;
  SetArgs req "EndTime" (GetISO8601TimeStamp endTime);;
  do L <- loadLive l;
  Query (rpc L) req resp.

Definition StreamsOnlineList (l : loc) (resp : Resp) : M (Resp * option error) :=
  do req <- cloneRequest l DescribeLiveStreamsOnlineListAction;
  do L <- loadLive l;
  Query (rpc L) req resp.

Definition StreamsBlockList (l : loc) (resp : Resp) : M (Resp * option error) :=
  do req <- cloneRequest l DescribeLiveStreamsBlockListAction;
  do r <- loadRequest req;
  storeRequest req (mkRequest (Action r) (DomainName r) "" (Args r));;
  do L <- loadLive l;
  Query (rpc L) req resp.

Definition StreamsControlHistory (l : loc) (startTime endTime : Time) (resp : Resp)
    : M (Resp * option error) :=
  do req <- cloneRequest l DescribeLiveStreamsControlHistoryAction;
  SetArgs req "StartTime" (GetISO8601TimeStamp startTime);;
  SetArgs req "EndTime" (GetISO8601TimeStamp endTime);;
  do L <- loadLive l;
  Query (rpc L) req resp.

Definition appNameEmpty : error := errors_New "appName should not to be empty".

Definition ForbidLiveStream (l : loc) (appName streamName liveStreamType : string)
    (resumeTime : option Time) (resp : Resp) : M (Resp * option error) :=
  if decide (global_EmptyString = appName) then ret (resp, Some appNameEmpty)
  else
    do req <- cloneRequest l ForbidLiveStreamAction;
    do r <- loadRequest req;
    storeRequest req (mkRequest (Action r) (DomainName r) appName (Args r));;
    SetArgs req "StreamName" streamName;;
    SetArgs req "LiveStreamType" liveStreamType;;
    match resumeTime with
    | Some t => SetArgs req "ResumeTime" (GetISO8601TimeStamp t)
    | None => ret tt
    end;;
    do L <- loadLive l;
    Query (rpc L) req resp.

Definition ForbidLiveStreamWithPublisher (l : loc) (streamName : string)
    (resumeTime : option Time) (resp : Resp) : M (Resp * option error) :=
  do L <- loadLive l;
  do r <- loadRequest (liveReq L);
  ForbidLiveStream l (AppName r) streamName "publisher" resumeTime resp.

Definition ResumeLiveStream (l : loc) (appName streamName liveStreamType : string)
    (resp : Resp) : M (Resp * option error) :=
  if decide (global_EmptyString = appName) then ret (resp, Some appNameEmpty)
  else
    do req <- cloneRequest l ResumeLiveStreamAction;
    do r <- loadRequest req;
    storeRequest req (mkRequest (Action r) (DomainName r) appName (Args r));;
    SetArgs req "StreamName" streamName;;
    SetArgs req "LiveStreamType" liveStreamType;;
    do L <- loadLive l;
    Query (rpc L) req resp.

Definition ResumeLiveStreamWithPublisher (l : loc) (streamName : string)
    (resp : Resp) : M (Resp * option error) :=
  do L <- loadLive l;
  do r <- loadRequest (liveReq L);
  ResumeLiveStream l (AppName r) streamName "publisher" resp.

(** Modelled from the spec: the stream URL signer (live/stream.go) is not
    among the sources.  Spec 6 gives the form
    [rtmp://<domain>/<appName>/<streamName>?vhost=<cdn>[&auth_key=...]],
    where by the comment on [Live.videoCenterDns] the host is the live
    centre and [vhost] the accelerated domain; spec 4.2: the auth key is
    "derived from a hash over domain path, expiry, and secret", and "if
    credentials are absent, returns an unsigned URL with no auth key (not
    an error ...)". *)
Definition unsignedUrl (s : Stream.t) : string :=
  "rtmp://" +:+ Stream.videoCenterDns s +:+ "/" +:+ Stream.appName s +:+ "/" +:+
  Stream.StreamName s +:+ "?vhost=" +:+ Stream.domainName s.

Definition signedPath (s : Stream.t) : string :=
  "/" +:+ Stream.appName s +:+ "/" +:+ Stream.StreamName s.

Definition StreamUrl (s : Stream.t) (expiry : option Z) : M (string * option error) :=
  match Stream.streamCert s with
  | None => ret (unsignedUrl s, None)
  | Some c =>
      do v <- loadCredentials c;
      ret (unsignedUrl s +:+ "&auth_key=" +:+ vendorAuthKey (signedPath s) expiry v,
           None)
  end.

End live.

(** ** Reading a URL *)

(** Whether the character [c] occurs in [s]. *)
Fixpoint occurs (c : ascii) (s : string) : bool :=
  match s with
  | "" => false
  | String x s' => if decide (x = c) then true else occurs c s'
  end.

(** The text after the first [c], empty when there is none. *)
Fixpoint afterFirst (c : ascii) (s : string) : string :=
  match s with
  | "" => ""
  | String x s' => if decide (x = c) then s' else afterFirst c s'
  end.

(** The text before the first [c], all of [s] when there is none. *)
Fixpoint beforeFirst (c : ascii) (s : string) : string :=
  match s with
  | "" => ""
  | String x s' => if decide (x = c) then "" else String x (beforeFirst c s')
  end.

(** The pieces of [s] between the occurrences of [c]. *)
Fixpoint splitOn (c : ascii) (s : string) : list string :=
  match s with
  | "" => [""]
  | String x s' =>
      if decide (x = c) then "" :: splitOn c s'
      else match splitOn c s' with
           | piece :: pieces => String x piece :: pieces
           | [] => [String x ""]
           end
  end.

(** The names of the query parameters of a URL: the query is what follows
    the first [?], its parameters are separated by [&], empty ones are
    skipped, and a name ends at the first [=]. *)
Definition queryNames (url : string) : list string :=
  beforeFirst "=" <$> filter (λ p, p ≠ "") (splitOn "&" (afterFirst "?" url)).

(** ** Reading a store *)

(** The template request of controller [l]. *)
Definition templateOf (σ : Store) (l : loc) : option Request :=
  match lives σ !! l with
  | Some L => requests σ !! liveReq L
  | None => None
  end.

(** The store a computation leaves, when it returns. *)
Definition storeAfter {A : Type} (m : M A) (σ : Store) : option Store :=
  match m σ with
  | Some (_, σ') => Some σ'
  | None => None
  end.

(** ** Describing stores and outcomes *)

(** The store a [SetAction] leaves: the request at [p] carries [action]. *)
Definition retitled (σ : Store) (p : loc) (r : Request) (action : string) : Store :=
  setRequests σ
    (<[p := mkRequest action (DomainName r) (AppName r) (Args r)]> (requests σ)).

(** The store a [Clone] leaves: one more bag, one more request. *)
Definition cloned (σ : Store) (r : Request) (b : gmap string string) : Store :=
  setRequests (setBags σ (<[fresh (dom (bags σ)) := b]> (bags σ)))
    (<[fresh (dom (requests σ)) :=
         mkRequest (Action r) (DomainName r) (AppName r) (fresh (dom (bags σ)))]>
       (requests σ)).

(** A controller [l] in working order: its client, its template request
    and the template's bag are all there. *)
Definition controller (σ : Store) (l : loc) (L : Live) (r : Request)
    (b : gmap string string) : Prop :=
  lives σ !! l = Some L ∧ is_Some (clients σ !! rpc L) ∧
  requests σ !! liveReq L = Some r ∧ bags σ !! Args r = Some b.

(** The outcome of [m] from [σ], value and store, is the outcome of one
    [Query] through client [c] into [resp], the first round trip since
    [σ]. *)
Definition propagates `{Collaborators} (c : loc) (resp : Resp)
    (m : M (Resp * option error)) (σ : Store) : Prop :=
  ∃ (σq : Store) (req : loc) (out : Resp * option error) (σ' : Store),
    m σ = Query c req resp σq ∧
    Query c req resp σq = Some (out, σ') ∧
    network σq = network σ.

(** ** Describing one round trip *)

(** What a query method leaves behind on a controller whose template was [r]
    with bag [b]: [s] went out through the controller's client, last on the
    list of queries sent, and its answer is the outcome; the template
    carries the action sent and is otherwise [r], its bag is [b], and
    controllers, clients and credentials are as before. *)
Definition answered `{Collaborators} (σ : Store) (L : Live) (r : Request)
    (b : gmap string string) (resp : Resp) (s : Sent)
    (out : Resp * option error) (σ' : Store) : Prop :=
  out = roundTrip (network σ) s resp ∧
  network σ' = network σ ++ [s] ∧
  via s = rpc L ∧
  sentDomainName s = DomainName r ∧
  requests σ' !! liveReq L
  = Some (mkRequest (sentAction s) (DomainName r) (AppName r) (Args r)) ∧
  bags σ' !! Args r = Some b ∧
  lives σ' = lives σ ∧ clients σ' = clients σ ∧ credentials σ' = credentials σ.

(** [m] returns from [σ] after exactly one more query, with the controller
    still in working order: same domain, default app name and bag. *)
Definition keepsController `{Collaborators} (m : M (Resp * option error))
    (σ : Store) (l : loc) (L : Live) (r : Request) (b : gmap string string) : Prop :=
  ∃ (out : Resp * option error) (σ' : Store) (a : string),
    m σ = Some (out, σ') ∧
    controller σ' l L (mkRequest a (DomainName r) (AppName r) (Args r)) b ∧
    length (network σ') = S (length (network σ)).

(** An action set by hand before [m] makes no difference to [m]: with or
    without [SetAction l a] first, [m] returns the same outcome after
    sending the same query, and leaves the same template. *)
Definition actionUnseen `{Collaborators} (m : M (Resp * option error))
    (σ : Store) (l : loc) (a : string) : Prop :=
  ∃ (out : Resp * option error) (σ1 σ2 : Store) (s : Sent),
    (SetAction l a;; m) σ = Some (out, σ1) ∧
    m σ = Some (out, σ2) ∧
    network σ1 = network σ ++ [s] ∧
    network σ2 = network σ ++ [s] ∧
    templateOf σ1 l = templateOf σ2 l.

(** ** A sample environment

    Times are seconds, response targets are texts; the remote end refuses
    the app ["blocked"] and otherwise answers with the action it was asked;
    the auth key is the expiry (0 when none is asked) followed by the path
    and the signing key. *)

Definition sampleRoundTrip (log : list Sent) (s : Sent) (resp : string)
    : string * option error :=
  if decide (sentAppName s = "blocked")
  then (resp, Some (vendorError
                      (aliyun.mkErrorResponse "R-1" "" "" "Forbidden" "denied" 403)))
  else (sentAction s, None).

Definition sampleWorld : Collaborators := {|
  Time := Z;
  Resp := string;
  GetISO8601TimeStamp := λ t, pretty t;
  DescribeLiveStreamsPublishListAction := "DescribeLiveStreamsPublishList";
  DescribeLiveStreamsOnlineListAction := "DescribeLiveStreamsOnlineList";
  DescribeLiveStreamsBlockListAction := "DescribeLiveStreamsBlockList";
  DescribeLiveStreamsControlHistoryAction := "DescribeLiveStreamsControlHistory";
  ForbidLiveStreamAction := "ForbidLiveStream";
  ResumeLiveStreamAction := "ResumeLiveStream";
  roundTrip := sampleRoundTrip;
  vendorAuthKey := λ path expiry c,
    pretty (default 0 expiry) +:+ "-" +:+ path +:+ "-" +:+ signingKey c
|}.

(** The store after [NewLive "id" "secret" domain app None] on the empty
    store. *)
Definition sampleStore (domain app : string) : Store :=
  mkStore {[1%positive := mkLive 1 1 None DefaultVideoCenter]}
    {[1%positive := mkClient "id" "secret" false]}
    {[1%positive := mkRequest "" domain app 1]}
    {[1%positive := ∅]} ∅ [].

(** The same with stream credentials configured on the controller. *)
Definition sampleSignedStore (domain app : string) : Store :=
  mkStore {[1%positive := mkLive 1 1 (Some 1%positive) DefaultVideoCenter]}
    {[1%positive := mkClient "id" "secret" false]}
    {[1%positive := mkRequest "" domain app 1]}
    {[1%positive := ∅]}
    {[1%positive := mkStreamCredentials "k3y" 3600]} [].

(** ** Facts about strings *)

Lemma string_app_assoc (a b c : string) : (a +:+ b) +:+ c = a +:+ b +:+ c.
Proof.
  induction a as [|x a IH]; [reflexivity|].
  unfold String.app in *. cbn. by rewrite IH.
Qed.

Lemma Contains_intro (pre sub post : string) : Contains (pre +:+ sub +:+ post) sub.
Proof. by exists pre, post. Qed.

Lemma Contains_prefix (a s sub : string) : Contains s sub → Contains (a +:+ s) sub.
Proof.
  intros (pre & post & ->). exists (a +:+ pre), post.
  by rewrite string_app_assoc.
Qed.

(** The message is the fixed text with the four fields spliced in, in the
    order request id, status, code, message. *)
Lemma Error_unfold (e : aliyun.ErrorResponse) :
  aliyun.Error e =
    ("Aliyun API Error:" +:+ LF +:+ " RequestId: ") +:+ aliyun.RequestId e +:+
    (LF +:+ " Status Code: ") +:+ pretty (aliyun.StatusCode e) +:+
    (LF +:+ " Code: ") +:+ aliyun.Code e +:+
    (LF +:+ " Message: ") +:+ aliyun.Message e +:+ LF.
Proof. reflexivity. Qed.

Example Error_sample :
  aliyun.Error (aliyun.mkErrorResponse "R-1" "" "live.aliyuncs.com" "Forbidden" "no" 403)
  = "Aliyun API Error:" +:+ LF +:+ " RequestId: R-1" +:+ LF +:+
    " Status Code: 403" +:+ LF +:+ " Code: Forbidden" +:+ LF +:+
    " Message: no" +:+ LF.
Proof. vm_compute. reflexivity. Qed.

Example Error_negative_status :
  aliyun.Error (aliyun.mkErrorResponse "" "" "" "" "" (-7))
  = "Aliyun API Error:" +:+ LF +:+ " RequestId: " +:+ LF +:+
    " Status Code: -7" +:+ LF +:+ " Code: " +:+ LF +:+
    " Message: " +:+ LF.
Proof. vm_compute. reflexivity. Qed.

(** C2: for every [ErrorResponse] [e], the text of [e.Error()] contains the
    request id, the decimal rendering of the status code, the code and the
    message, each verbatim as a substring. *)
Theorem C2_Error_contains_fields (e : aliyun.ErrorResponse) :
  Contains (aliyun.Error e) (aliyun.RequestId e) ∧
  Contains (aliyun.Error e) (pretty (aliyun.StatusCode e)) ∧
  Contains (aliyun.Error e) (aliyun.Code e) ∧
  Contains (aliyun.Error e) (aliyun.Message e).
Proof.
  rewrite Error_unfold. repeat split.
  - apply Contains_intro.
  - do 2 apply Contains_prefix. apply Contains_intro.
  - do 4 apply Contains_prefix. apply Contains_intro.
  - do 6 apply Contains_prefix. apply Contains_intro.
Qed.

(** ** Facts about URLs *)

Lemma string_app_length (a b : string) :
  String.length (a +:+ b) = (String.length a + String.length b)%nat.
Proof.
  induction a as [|x a IH]; [reflexivity|].
  change (S (String.length (a +:+ b)) = S (String.length a + String.length b)).
  by rewrite IH.
Qed.

Lemma string_app_neq (a b : string) : b ≠ "" → a ≠ a +:+ b.
Proof.
  intros Hb E. apply (f_equal String.length) in E.
  rewrite string_app_length in E. destruct b; [done|]. cbn in E. lia.
Qed.

Lemma occurs_app (c : ascii) (a b : string) :
  occurs c (a +:+ b) = occurs c a || occurs c b.
Proof.
  induction a as [|x a IH]; [reflexivity|].
  change (occurs c (String x (a +:+ b)) = occurs c (String x a) || occurs c b).
  cbn [occurs]. by destruct (decide (x = c)).
Qed.

Lemma afterFirst_app (c : ascii) (a b : string) :
  occurs c a = false → afterFirst c (a +:+ String c b) = b.
Proof.
  induction a as [|x a IH]; intros Ha.
  - change (afterFirst c (String c b) = b). cbn [afterFirst].
    by rewrite decide_True.
  - change (afterFirst c (String x (a +:+ String c b)) = b).
    cbn [occurs afterFirst] in *. destruct (decide (x = c)); [done|]. by apply IH.
Qed.


Example queryNames_signed :
  queryNames "rtmp://video-center.alivecdn.com/app/s?vhost=cdn.example.com&auth_key=1-0-0-ab"
  = ["vhost"; "auth_key"].
Proof. vm_compute. reflexivity. Qed.

(** ** Running computations *)

Lemma bind_run {A B : Type} {m : M A} (k : A → M B) {σ σ' : Store} {a : A} :
  m σ = Some (a, σ') → bind m k σ = k a σ'.
Proof. intros E. unfold bind. by rewrite E. Qed.

Ltac mrun :=
  cbv [bind ret get put panic orPanic
       loadLive loadClient loadRequest loadBag loadCredentials
       storeLive storeClient storeRequest storeBag storeCredentials
       newLive newClient newRequest newBag newCredentials send].

Lemma fresh_lookup_ne {V : Type} (m : gmap loc V) (p : loc) (v : V) :
  m !! p = Some v → fresh (dom m) ≠ p.
Proof.
  intros E Hp. apply (is_fresh (dom m)). rewrite Hp.
  apply elem_of_dom. by exists v.
Qed.

Lemma fresh_lookup_None {V : Type} (m : gmap loc V) : m !! fresh (dom m) = None.
Proof. apply not_elem_of_dom, is_fresh. Qed.

Ltac proj :=
  cbn [lives clients requests bags credentials network
       setLives setClients setRequests setBags setCredentials setNetwork].

Section runs.
Context `{Collaborators}.

Lemma SetArgs_run (σ : Store) (req : loc) (r : Request) (b : gmap string string)
    (key value : string) :
  requests σ !! req = Some r →
  bags σ !! Args r = Some b →
  SetArgs req key value σ
  = Some (tt, setBags σ (<[Args r := <[key := value]> b]> (bags σ))).
Proof.
  intros Er Eb. unfold SetArgs. mrun. by rewrite Er, Eb.
Qed.

Lemma Clone_run (σ : Store) (req : loc) (r : Request) (b : gmap string string) :
  requests σ !! req = Some r →
  bags σ !! Args r = Some b →
  Clone req σ = Some (fresh (dom (requests σ)), cloned σ r b).
Proof.
  intros Er Eb. unfold Clone. mrun. by rewrite Er, Eb.
Qed.

Lemma SetAction_run (σ : Store) (l : loc) (L : Live) (r : Request) (a : string) :
  lives σ !! l = Some L →
  requests σ !! liveReq L = Some r →
  SetAction l a σ = Some (l, retitled σ (liveReq L) r a).
Proof.
  intros EL Er. unfold SetAction. mrun. by rewrite EL, Er.
Qed.

Lemma cloneRequest_run (σ : Store) (l : loc) (L : Live) (r : Request)
    (b : gmap string string) (a : string) :
  lives σ !! l = Some L →
  requests σ !! liveReq L = Some r →
  bags σ !! Args r = Some b →
  cloneRequest l a σ
  = Some (fresh (dom (requests (retitled σ (liveReq L) r a))),
          cloned (retitled σ (liveReq L) r a)
            (mkRequest a (DomainName r) (AppName r) (Args r)) b).
Proof.
  intros EL Er Eb. unfold cloneRequest.
  rewrite (bind_run _ (SetAction_run _ _ _ _ a EL Er)).
  assert (loadLive l (retitled σ (liveReq L) r a)
          = Some (L, retitled σ (liveReq L) r a)) as E.
  { mrun. unfold retitled. proj. by rewrite EL. }
  rewrite (bind_run _ E). apply Clone_run.
  - unfold retitled. proj. apply lookup_insert_eq.
  - done.
Qed.

Lemma Query_run (σ : Store) (c req : loc) (r : Request) (b : gmap string string)
    (resp : Resp) :
  is_Some (clients σ !! c) →
  requests σ !! req = Some r →
  bags σ !! Args r = Some b →
  Query c req resp σ
  = Some (roundTrip (network σ)
            (mkSent c (Action r) (DomainName r) (AppName r) b) resp,
          setNetwork σ
            (network σ ++ [mkSent c (Action r) (DomainName r) (AppName r) b])).
Proof.
  intros [v Ec] Er Eb. unfold Query. mrun. by rewrite Ec, Er, Eb.
Qed.

Lemma loadLive_run (σ : Store) (l : loc) (L : Live) :
  lives σ !! l = Some L → loadLive l σ = Some (L, σ).
Proof. intros E. mrun. by rewrite E. Qed.

Lemma loadRequest_run (σ : Store) (p : loc) (r : Request) :
  requests σ !! p = Some r → loadRequest p σ = Some (r, σ).
Proof. intros E. mrun. by rewrite E. Qed.

Lemma loadCredentials_run (σ : Store) (c : loc) (v : StreamCredentials) :
  credentials σ !! c = Some v → loadCredentials c σ = Some (v, σ).
Proof. intros E. mrun. by rewrite E. Qed.

Lemma storeRequest_run (σ : Store) (p : loc) (v : Request) :
  storeRequest p v σ = Some (tt, setRequests σ (<[p := v]> (requests σ))).
Proof. reflexivity. Qed.

Lemma ret_run {A : Type} (a : A) (σ : Store) : ret a σ = Some (a, σ).
Proof. reflexivity. Qed.

Lemma cloned_lives (σ : Store) (r : Request) (b : gmap string string) :
  lives (cloned σ r b) = lives σ.
Proof. reflexivity. Qed.

Lemma cloned_clients (σ : Store) (r : Request) (b : gmap string string) :
  clients (cloned σ r b) = clients σ.
Proof. reflexivity. Qed.

Lemma cloned_credentials (σ : Store) (r : Request) (b : gmap string string) :
  credentials (cloned σ r b) = credentials σ.
Proof. reflexivity. Qed.

Lemma cloned_network (σ : Store) (r : Request) (b : gmap string string) :
  network (cloned σ r b) = network σ.
Proof. reflexivity. Qed.

Lemma retitled_lives (σ : Store) (p : loc) (r : Request) (a : string) :
  lives (retitled σ p r a) = lives σ.
Proof. reflexivity. Qed.

Lemma retitled_clients (σ : Store) (p : loc) (r : Request) (a : string) :
  clients (retitled σ p r a) = clients σ.
Proof. reflexivity. Qed.

Lemma retitled_bags (σ : Store) (p : loc) (r : Request) (a : string) :
  bags (retitled σ p r a) = bags σ.
Proof. reflexivity. Qed.

Lemma retitled_credentials (σ : Store) (p : loc) (r : Request) (a : string) :
  credentials (retitled σ p r a) = credentials σ.
Proof. reflexivity. Qed.

Lemma retitled_network (σ : Store) (p : loc) (r : Request) (a : string) :
  network (retitled σ p r a) = network σ.
Proof. reflexivity. Qed.

Lemma retitled_requests (σ : Store) (p : loc) (r : Request) (a : string) :
  requests (retitled σ p r a) !! p
  = Some (mkRequest a (DomainName r) (AppName r) (Args r)).
Proof. unfold retitled. proj. apply lookup_insert_eq. Qed.

Lemma StreamCredentials_Clone_run (σ : Store) (c : loc) (v : StreamCredentials) :
  credentials σ !! c = Some v →
  StreamCredentials_Clone c σ
  = Some (fresh (dom (credentials σ)),
          setCredentials σ (<[fresh (dom (credentials σ)) := v]> (credentials σ))).
Proof. intros E. unfold StreamCredentials_Clone. mrun. by rewrite E. Qed.

(** *** What a clone adds and what it leaves *)

Lemma cloned_requests_new (σ : Store) (r : Request) (b : gmap string string) :
  requests (cloned σ r b) !! fresh (dom (requests σ))
  = Some (mkRequest (Action r) (DomainName r) (AppName r) (fresh (dom (bags σ)))).
Proof. unfold cloned. proj. apply lookup_insert_eq. Qed.

Lemma cloned_requests_old (σ : Store) (r v : Request) (b : gmap string string)
    (p : loc) :
  requests σ !! p = Some v → requests (cloned σ r b) !! p = Some v.
Proof.
  intros E. unfold cloned. proj. rewrite lookup_insert_ne; [done|].
  by eapply fresh_lookup_ne.
Qed.

Lemma cloned_bags_new (σ : Store) (r : Request) (b : gmap string string) :
  bags (cloned σ r b) !! fresh (dom (bags σ)) = Some b.
Proof. unfold cloned. proj. apply lookup_insert_eq. Qed.

Lemma cloned_bags_old (σ : Store) (r : Request) (b v : gmap string string)
    (q : loc) :
  bags σ !! q = Some v → bags (cloned σ r b) !! q = Some v.
Proof.
  intros E. unfold cloned. proj. rewrite lookup_insert_ne; [done|].
  by eapply fresh_lookup_ne.
Qed.

End runs.

Create Rewrite HintDb store.
#[local] Hint Rewrite @cloned_lives @cloned_clients @cloned_credentials
  @cloned_network @retitled_lives @retitled_clients @retitled_bags
  @retitled_credentials @retitled_network : store.

(** A lookup in a store built by the operations above. *)
Ltac lookups :=
  proj; autorewrite with store; cbn [Args Action DomainName AppName];
  first
    [ eassumption
    | apply lookup_insert_eq
    | apply cloned_requests_new
    | apply cloned_bags_new
    | apply retitled_requests
    | (rewrite lookup_insert_ne by eauto using fresh_lookup_ne); lookups
    | reflexivity ].

(** One statement of a method body: run it and go on with what follows. *)
Ltac step :=
  lazymatch goal with
  | |- bind ?m ?k ?σ = _ =>
      let E := fresh "E" in
      eassert (m σ = Some _) as E
        by first
             [ eapply cloneRequest_run; eassumption
             | eapply SetArgs_run; lookups
             | apply storeRequest_run
             | eapply loadRequest_run; lookups
             | eapply loadLive_run; lookups
             | apply ret_run ];
      rewrite (bind_run k E); clear E;
      cbv beta; cbn [Action DomainName AppName Args]
  end.

(** ** The claims *)

Section claims.
Context `{Collaborators}.

(** [NewLive] builds a controller in working order, whatever the store it
    starts from: the hypotheses of the claims below are those of every
    controller the package hands out. *)
Lemma NewLive_controller (σ : Store) (keyId keySecret domainName appName : string)
    (cert : option loc) :
  ∃ (l : loc) (σ' : Store) (c p b : loc),
    NewLive keyId keySecret domainName appName cert σ = Some (l, σ') ∧
    controller σ' l (mkLive c p cert DefaultVideoCenter)
      (mkRequest "" domainName appName b) ∅ ∧
    credentials σ' = credentials σ ∧ network σ' = network σ.
Proof.
  eexists _, _, _, _, _. split.
  { unfold NewLive, NewLiveWithCtx, NewClientCtx, NewLiveRequest. mrun.
    reflexivity. }
  split; [|split; reflexivity].
  unfold controller. proj. cbn [rpc liveReq Args].
  rewrite !lookup_insert_eq. by repeat split.
Qed.

(** [cloneRequest] keeps the controller in working order. *)
Lemma cloneRequest_controller (σ σ' : Store) (l req : loc) (L : Live) (r : Request)
    (b : gmap string string) (a : string) :
  controller σ l L r b →
  cloneRequest l a σ = Some (req, σ') →
  controller σ' l L (mkRequest a (DomainName r) (AppName r) (Args r)) b.
Proof.
  intros (EL & Ec & Er & Eb) Erun.
  rewrite (cloneRequest_run _ _ _ _ _ a EL Er Eb) in Erun.
  injection Erun as _ <-. unfold controller.
  rewrite cloned_lives, cloned_clients, retitled_lives, retitled_clients.
  split; [done|]. split; [done|]. split.
  - apply cloned_requests_old, retitled_requests.
  - apply cloned_bags_old. by rewrite retitled_bags.
Qed.

(** C1: a call of [ForbidLiveStream] or of [ResumeLiveStream] whose
    [appName] is the empty string returns the validation error at once:
    the store, and with it the controller, its template and the list of
    queries sent, is the one the call started from, and the response
    target is untouched. *)
Theorem C1_empty_appName_rejected (σ : Store) (l : loc)
    (streamName liveStreamType : string) (resumeTime : option Time) (resp : Resp) :
  ForbidLiveStream l "" streamName liveStreamType resumeTime resp σ
  = Some ((resp, Some (errors_New "appName should not to be empty")), σ) ∧
  ResumeLiveStream l "" streamName liveStreamType resp σ
  = Some ((resp, Some (errors_New "appName should not to be empty")), σ).
Proof. split; reflexivity. Qed.

(** C10: on a controller whose default app name is the empty string,
    [ForbidLiveStreamWithPublisher] and [ResumeLiveStreamWithPublisher]
    return the [appName] validation error and leave the store, hence the
    list of queries sent, as it was. *)
Theorem C10_WithPublisher_empty_default (σ : Store) (l : loc) (L : Live)
    (r : Request) (streamName : string) (resumeTime : option Time) (resp : Resp) :
  lives σ !! l = Some L →
  requests σ !! liveReq L = Some r →
  AppName r = "" →
  ForbidLiveStreamWithPublisher l streamName resumeTime resp σ
  = Some ((resp, Some (errors_New "appName should not to be empty")), σ) ∧
  ResumeLiveStreamWithPublisher l streamName resp σ
  = Some ((resp, Some (errors_New "appName should not to be empty")), σ).
Proof.
  intros EL Er Eapp.
  assert (loadLive l σ = Some (L, σ)) as E1 by (mrun; by rewrite EL).
  assert (loadRequest (liveReq L) σ = Some (r, σ)) as E2 by (mrun; by rewrite Er).
  unfold ForbidLiveStreamWithPublisher, ResumeLiveStreamWithPublisher.
  rewrite !(bind_run _ E1), !(bind_run _ E2), Eapp.
  split; reflexivity.
Qed.

(** C3: a request and its clone have independent argument bags: after
    [Clone] and any [SetArgs] on the clone, the original request and its
    bag are exactly as before, while the clone, a different request with a
    different bag, holds the new entry. *)
Theorem C3_clone_args_independent (σ : Store) (req : loc) (r : Request)
    (b : gmap string string) (key value : string) :
  requests σ !! req = Some r →
  bags σ !! Args r = Some b →
  ∃ (c : loc) (σ1 σ2 : Store) (rc : Request),
    Clone req σ = Some (c, σ1) ∧
    SetArgs c key value σ1 = Some (tt, σ2) ∧
    c ≠ req ∧
    requests σ2 !! c = Some rc ∧
    Args rc ≠ Args r ∧
    bags σ1 !! Args rc = Some b ∧
    bags σ2 !! Args rc = Some (<[key := value]> b) ∧
    requests σ1 !! req = Some r ∧ bags σ1 !! Args r = Some b ∧
    requests σ2 !! req = Some r ∧ bags σ2 !! Args r = Some b ∧
    ∃ σ3 : Store,
      SetArgs req key value σ1 = Some (tt, σ3) ∧
      bags σ3 !! Args r = Some (<[key := value]> b) ∧
      bags σ3 !! Args rc = Some b.
Proof.
  intros Er Eb.
  pose proof (cloned_requests_new σ r b) as Ec.
  pose proof (cloned_bags_new σ r b) as Ecb.
  pose proof (fresh_lookup_ne _ _ _ Eb) as Hne.
  eexists _, _, _, _. split; [by apply Clone_run|].
  split; [by eapply SetArgs_run|].
  proj. repeat split.
  - by eapply fresh_lookup_ne.
  - exact Ec.
  - exact Hne.
  - exact Ecb.
  - cbn [Args]. apply lookup_insert_eq.
  - by apply cloned_requests_old.
  - by apply cloned_bags_old.
  - by apply cloned_requests_old.
  - cbn [Args]. rewrite lookup_insert_ne by exact Hne. by apply cloned_bags_old.
  - eexists. split.
    + eapply SetArgs_run; [by apply cloned_requests_old | by apply cloned_bags_old].
    + proj. cbn [Args]. split; [apply lookup_insert_eq|].
      rewrite lookup_insert_ne by (symmetry; exact Hne). exact Ecb.
Qed.

(** C4: [SetAction] writes the action field of the controller's shared
    template and nothing else: the template keeps its domain, app name and
    bag, every other request, in particular a clone taken before the call,
    is as it was, and so are the other heaps and the list of queries sent;
    a clone taken after the call carries the new action, and the earlier
    clone still carries the old one. *)
Theorem C4_SetAction_frame (σ : Store) (l : loc) (L : Live) (r : Request)
    (b : gmap string string) (a : string) :
  lives σ !! l = Some L →
  requests σ !! liveReq L = Some r →
  bags σ !! Args r = Some b →
  (∃ σ' : Store,
      SetAction l a σ = Some (l, σ') ∧
      requests σ' !! liveReq L
      = Some (mkRequest a (DomainName r) (AppName r) (Args r)) ∧
      (∀ p : loc, p ≠ liveReq L → requests σ' !! p = requests σ !! p) ∧
      lives σ' = lives σ ∧ clients σ' = clients σ ∧ bags σ' = bags σ ∧
      credentials σ' = credentials σ ∧ network σ' = network σ) ∧
  (∃ (c0 : loc) (σ0 σ1 : Store) (before : Request),
      Clone (liveReq L) σ = Some (c0, σ0) ∧
      c0 ≠ liveReq L ∧
      requests σ0 !! c0 = Some before ∧
      Action before = Action r ∧
      SetAction l a σ0 = Some (l, σ1) ∧
      requests σ1 !! c0 = Some before ∧
      ∃ (c1 : loc) (σ2 : Store) (after : Request),
        Clone (liveReq L) σ1 = Some (c1, σ2) ∧
        requests σ2 !! c1 = Some after ∧
        Action after = a ∧
        requests σ2 !! c0 = Some before).
Proof.
  intros EL Er Eb. split.
  - eexists. split; [by eapply SetAction_run|].
    unfold retitled. proj. split; [apply lookup_insert_eq|].
    split; [|done]. intros p Hp. by rewrite lookup_insert_ne.
  - pose proof (fresh_lookup_ne _ _ _ Er) as Hne.
    pose proof (cloned_requests_old σ r r b _ Er) as Er0.
    pose proof (cloned_requests_new σ r b) as Ec0.
    assert (requests (retitled (cloned σ r b) (liveReq L) r a)
              !! fresh (dom (requests σ))
            = Some (mkRequest (Action r) (DomainName r) (AppName r)
                      (fresh (dom (bags σ))))) as Ec1.
    { unfold retitled. proj. rewrite lookup_insert_ne by done. exact Ec0. }
    eexists _, _, _, _. split; [by apply Clone_run|].
    split; [exact Hne|]. split; [exact Ec0|]. split; [done|].
    split; [by eapply (SetAction_run (cloned σ r b))|].
    split; [exact Ec1|].
    eexists _, _, _. split.
    + eapply Clone_run.
      * unfold retitled. proj. apply lookup_insert_eq.
      * cbn [Args]. unfold retitled. proj. by apply cloned_bags_old.
    + split; [apply cloned_requests_new|]. split; [done|].
      by apply cloned_requests_old.
Qed.

Lemma propagates_intro (c : loc) (resp : Resp) (m : M (Resp * option error))
    (σ σq : Store) (req : loc) (r : Request) (b : gmap string string) :
  m σ = Query c req resp σq →
  is_Some (clients σq !! c) →
  requests σq !! req = Some r →
  bags σq !! Args r = Some b →
  network σq = network σ →
  propagates c resp m σ.
Proof.
  intros Em Ec Er Eb En. exists σq, req. eexists _, _.
  split; [exact Em|]. split; [by eapply Query_run|exact En].
Qed.

Lemma ForbidLiveStream_propagates (σ : Store) (l : loc) (L : Live) (r : Request)
    (b : gmap string string) (appName streamName liveStreamType : string)
    (resumeTime : option Time) (resp : Resp) :
  controller σ l L r b →
  appName ≠ "" →
  propagates (rpc L) resp
    (ForbidLiveStream l appName streamName liveStreamType resumeTime resp) σ.
Proof.
  intros (EL & Ec & Er & Eb) Happ.
  destruct resumeTime as [t|];
    (eapply propagates_intro;
       [unfold ForbidLiveStream; rewrite decide_False by done;
        do 7 step; reflexivity | lookups..]).
Qed.

Lemma ResumeLiveStream_propagates (σ : Store) (l : loc) (L : Live) (r : Request)
    (b : gmap string string) (appName streamName liveStreamType : string)
    (resp : Resp) :
  controller σ l L r b →
  appName ≠ "" →
  propagates (rpc L) resp
    (ResumeLiveStream l appName streamName liveStreamType resp) σ.
Proof.
  intros (EL & Ec & Er & Eb) Happ.
  eapply propagates_intro;
    [unfold ResumeLiveStream; rewrite decide_False by done;
     do 6 step; reflexivity | lookups..].
Qed.

(** C5: a controller method that passes validation returns what the
    client's [Query] returns, error and decoded target alike: the outcome
    of [StreamsPublishList], [StreamsOnlineList], [StreamsBlockList],
    [StreamsControlHistory], of [ForbidLiveStream] and [ResumeLiveStream]
    with a non-empty app name, and of their [WithPublisher] forms on a
    controller with a non-empty default app name, is the outcome of the one
    [Query] the method makes, so the error is [nil] exactly when that
    [Query] succeeds. *)
Theorem C5_Query_error_propagated (σ : Store) (l : loc) (L : Live) (r : Request)
    (b : gmap string string) (startTime endTime : Time)
    (appName streamName liveStreamType : string) (resumeTime : option Time)
    (resp : Resp) :
  controller σ l L r b →
  appName ≠ "" →
  propagates (rpc L) resp (StreamsPublishList l startTime endTime resp) σ ∧
  propagates (rpc L) resp (StreamsOnlineList l resp) σ ∧
  propagates (rpc L) resp (StreamsBlockList l resp) σ ∧
  propagates (rpc L) resp (StreamsControlHistory l startTime endTime resp) σ ∧
  propagates (rpc L) resp
    (ForbidLiveStream l appName streamName liveStreamType resumeTime resp) σ ∧
  propagates (rpc L) resp
    (ResumeLiveStream l appName streamName liveStreamType resp) σ ∧
  (AppName r ≠ "" →
   propagates (rpc L) resp
     (ForbidLiveStreamWithPublisher l streamName resumeTime resp) σ ∧
   propagates (rpc L) resp (ResumeLiveStreamWithPublisher l streamName resp) σ).
Proof.
  intros Hc Happ. pose proof Hc as (EL & Ec & Er & Eb).
  split; [|split; [|split; [|split; [|split; [|split]]]]].
  - eapply propagates_intro;
      [unfold StreamsPublishList; do 4 step; reflexivity | lookups..].
  - eapply propagates_intro;
      [unfold StreamsOnlineList; do 2 step; reflexivity | lookups..].
  - eapply propagates_intro;
      [unfold StreamsBlockList; do 4 step; reflexivity | lookups..].
  - eapply propagates_intro;
      [unfold StreamsControlHistory; do 4 step; reflexivity | lookups..].
  - by eapply ForbidLiveStream_propagates.
  - by eapply ResumeLiveStream_propagates.
  - intros Hdefault.
    pose proof (ForbidLiveStream_propagates σ l L r b (AppName r) streamName
                  "publisher" resumeTime resp Hc Hdefault) as HF.
    pose proof (ResumeLiveStream_propagates σ l L r b (AppName r) streamName
                  "publisher" resp Hc Hdefault) as HR.
    unfold propagates, ForbidLiveStreamWithPublisher,
      ResumeLiveStreamWithPublisher in *.
    by rewrite !(bind_run _ (loadLive_run _ _ _ EL)),
      !(bind_run _ (loadRequest_run _ _ _ Er)).
Qed.

(** C9, as the code has it: [StreamsBlockList] sends its request with an
    empty [AppName] whatever the controller's default app name is, and the
    template keeps its domain, its default app name and its bag with the
    same entries; the template's action is the block-list action
    afterwards, and the controller itself is as before. *)
Theorem C9_StreamsBlockList_blanks_clone (σ : Store) (l : loc) (L : Live)
    (r : Request) (b : gmap string string) (resp : Resp) :
  controller σ l L r b →
  ∃ (out : Resp * option error) (σ' : Store) (s : Sent),
    StreamsBlockList l resp σ = Some (out, σ') ∧
    out = roundTrip (network σ) s resp ∧
    network σ' = network σ ++ [s] ∧
    sentAppName s = "" ∧
    sentAction s = DescribeLiveStreamsBlockListAction ∧
    sentDomainName s = DomainName r ∧
    sentArgs s = b ∧
    requests σ' !! liveReq L
    = Some (mkRequest DescribeLiveStreamsBlockListAction
              (DomainName r) (AppName r) (Args r)) ∧
    bags σ' !! Args r = Some b ∧
    lives σ' = lives σ.
Proof.
  intros (EL & Ec & Er & Eb).
  eexists _, _, _. split.
  { unfold StreamsBlockList. do 4 step. eapply Query_run; lookups. }
  proj. do 6 (split; [reflexivity|]).
  split; [|split; [|reflexivity]].
  - rewrite lookup_insert_ne.
    + apply cloned_requests_old, retitled_requests.
    + eapply fresh_lookup_ne, retitled_requests.
  - apply cloned_bags_old. by rewrite retitled_bags.
Qed.

(** C8: [GetStream] returns [nil] for the empty stream name; for any
    other name, on a controller in working order, it returns a stream
    whose [signOn] is true exactly when the controller's [streamCert] is
    not [nil], and whose [streamCert] is then a new credentials object, at
    a location that held nothing, with the contents of the controller's,
    which stays where and as it was; with no credentials configured the
    stream has none and the store is unchanged. *)
Theorem C8_GetStream (σ : Store) (l : loc) (L : Live) (r : Request)
    (streamName : string) :
  lives σ !! l = Some L →
  requests σ !! liveReq L = Some r →
  (∀ c : loc, streamCert L = Some c → is_Some (credentials σ !! c)) →
  GetStream l "" σ = Some (None, σ) ∧
  (streamName ≠ "" →
   ∃ (s : Stream.t) (σ' : Store),
     GetStream l streamName σ = Some (Some s, σ') ∧
     Stream.StreamName s = streamName ∧
     Stream.domainName s = DomainName r ∧
     Stream.appName s = AppName r ∧
     Stream.videoCenterDns s = videoCenterDns L ∧
     Stream.live s = l ∧
     (Stream.signOn s = true ↔ streamCert L ≠ None) ∧
     match streamCert L with
     | None => Stream.streamCert s = None ∧ σ' = σ
     | Some c =>
         ∃ c' : loc,
           Stream.streamCert s = Some c' ∧ c' ≠ c ∧
           credentials σ !! c' = None ∧
           credentials σ' !! c' = credentials σ !! c ∧
           credentials σ' !! c = credentials σ !! c
     end).
Proof.
  intros EL Er Ecert. split; [reflexivity|]. intros Hname.
  unfold GetStream. rewrite decide_False by done.
  rewrite (bind_run _ (loadLive_run _ _ _ EL)).
  destruct (streamCert L) as [c|] eqn:Ecl.
  - destruct (Ecert c eq_refl) as [v Ev].
    rewrite (bind_run _ (bind_run _ (StreamCredentials_Clone_run _ _ _ Ev))).
    erewrite bind_run by (apply loadRequest_run; proj; exact Er).
    eexists _, _. split; [reflexivity|]. cbn [Stream.StreamName Stream.domainName
      Stream.appName Stream.videoCenterDns Stream.live Stream.signOn
      Stream.streamCert]. proj.
    do 5 (split; [reflexivity|]). split.
    + apply bool_decide_eq_true.
    + exists (fresh (dom (credentials σ))). split; [reflexivity|].
      pose proof (fresh_lookup_ne _ _ _ Ev) as Hne.
      split; [exact Hne|]. split; [apply fresh_lookup_None|].
      split; [by rewrite lookup_insert_eq | by rewrite lookup_insert_ne].
  - rewrite (bind_run _ (ret_run None σ)).
    rewrite (bind_run _ (loadRequest_run _ _ _ Er)).
    eexists _, _. split; [reflexivity|]. cbn [Stream.StreamName Stream.domainName
      Stream.appName Stream.videoCenterDns Stream.live Stream.signOn
      Stream.streamCert].
    do 5 (split; [reflexivity|]). split; [|done].
    apply bool_decide_eq_true.
Qed.


End claims.

(** ** The claims at sample inputs *)

Example NewLive_sample :
  NewLive "id" "secret" "cdn.example.com" "app" None emptyStore
  = Some (1%positive, sampleStore "cdn.example.com" "app").
Proof. vm_compute. reflexivity. Qed.

Example ForbidLiveStream_sample :
  ForbidLiveStream (H := sampleWorld) 1 "blocked" "s" "publisher" (Some 5) "old"
    (sampleStore "cdn.example.com" "app")
  = Some (("old", Some (vendorError
                          (aliyun.mkErrorResponse "R-1" "" "" "Forbidden" "denied" 403))),
          mkStore {[1%positive := mkLive 1 1 None DefaultVideoCenter]}
            {[1%positive := mkClient "id" "secret" false]}
            (<[2%positive := mkRequest "ForbidLiveStream" "cdn.example.com" "blocked" 2]>
               {[1%positive := mkRequest "ForbidLiveStream" "cdn.example.com" "app" 1]})
            (<[2%positive := <["ResumeTime" := "5"]>
                               (<["LiveStreamType" := "publisher"]>
                                  {["StreamName" := "s"]})]>
               {[1%positive := ∅]})
            ∅
            [mkSent 1 "ForbidLiveStream" "cdn.example.com" "blocked"
               (<["ResumeTime" := "5"]>
                  (<["LiveStreamType" := "publisher"]> {["StreamName" := "s"]}))]).
Proof. vm_compute. reflexivity. Qed.

Example GetStream_sample :
  GetStream 1 "s" (sampleStore "cdn.example.com" "app")
  = Some (Some (Stream.mk "cdn.example.com" "app" "s" DefaultVideoCenter None false 1),
          sampleStore "cdn.example.com" "app").
Proof. vm_compute. reflexivity. Qed.

Example StreamUrl_signed_sample :
  (do s <- GetStream 1 "s";
   match s with
   | Some s => StreamUrl (H := sampleWorld) s (Some 1500000000)
   | None => panic
   end) (sampleSignedStore "cdn.example.com" "app")
  = Some (("rtmp://video-center.alivecdn.com/app/s?vhost=cdn.example.com&auth_key=1500000000-/app/s-k3y",
           None),
          setCredentials (sampleSignedStore "cdn.example.com" "app")
            (<[2%positive := mkStreamCredentials "k3y" 3600]>
               {[1%positive := mkStreamCredentials "k3y" 3600]})).
Proof. vm_compute. reflexivity. Qed.

(** C9 as stated fails: on a controller fresh from [NewLive], whose
    template has the empty action, [StreamsBlockList] leaves a template with
    the block-list action. *)
Lemma C9_counterexample :
  ∃ σ' : Store,
    storeAfter (StreamsBlockList (H := sampleWorld) 1 "")
      (sampleStore "cdn.example.com" "app") = Some σ' ∧
    templateOf (sampleStore "cdn.example.com" "app") 1
    = Some (mkRequest "" "cdn.example.com" "app" 1) ∧
    templateOf σ' 1
    = Some (mkRequest "DescribeLiveStreamsBlockList" "cdn.example.com" "app" 1) ∧
    templateOf σ' 1 ≠ templateOf (sampleStore "cdn.example.com" "app") 1.
Proof.
  eexists. split; [vm_compute; reflexivity|].
  split; [vm_compute; reflexivity|].
  split; [vm_compute; reflexivity|].
  vm_compute. discriminate.
Qed.

Lemma C10_witness :
  lives (sampleStore "cdn.example.com" "") !! 1%positive
  = Some (mkLive 1 1 None DefaultVideoCenter) ∧
  requests (sampleStore "cdn.example.com" "") !! 1%positive
  = Some (mkRequest "" "cdn.example.com" "" 1) ∧
  ForbidLiveStreamWithPublisher (H := sampleWorld) 1 "s" (Some 5) "old"
    (sampleStore "cdn.example.com" "")
  = Some (("old", Some (errors_New "appName should not to be empty")),
          sampleStore "cdn.example.com" "") ∧
  ResumeLiveStreamWithPublisher (H := sampleWorld) 1 "s" "old"
    (sampleStore "cdn.example.com" "")
  = Some (("old", Some (errors_New "appName should not to be empty")),
          sampleStore "cdn.example.com" "").
Proof.
  split; [reflexivity|]. split; [reflexivity|].
  apply (C10_WithPublisher_empty_default (H := sampleWorld)
           (sampleStore "cdn.example.com" "") 1
           (mkLive 1 1 None DefaultVideoCenter)
           (mkRequest "" "cdn.example.com" "" 1) "s" (Some 5) "old");
    reflexivity.
Defined.

Lemma C3_witness :
  ∃ (c : loc) (σ1 σ2 : Store) (rc : Request),
    Clone 1 (sampleStore "cdn.example.com" "app") = Some (c, σ1) ∧
    SetArgs c "StartTime" "2015-12-01T17:36:00Z" σ1 = Some (tt, σ2) ∧
    c ≠ 1%positive ∧
    requests σ2 !! c = Some rc ∧
    Args rc ≠ 1%positive ∧
    bags σ1 !! Args rc = Some ∅ ∧
    bags σ2 !! Args rc = Some {["StartTime" := "2015-12-01T17:36:00Z"]} ∧
    requests σ1 !! 1%positive = Some (mkRequest "" "cdn.example.com" "app" 1) ∧
    bags σ1 !! 1%positive = Some ∅ ∧
    requests σ2 !! 1%positive = Some (mkRequest "" "cdn.example.com" "app" 1) ∧
    bags σ2 !! 1%positive = Some ∅ ∧
    ∃ σ3 : Store,
      SetArgs 1 "StartTime" "2015-12-01T17:36:00Z" σ1 = Some (tt, σ3) ∧
      bags σ3 !! 1%positive = Some {["StartTime" := "2015-12-01T17:36:00Z"]} ∧
      bags σ3 !! Args rc = Some ∅.
Proof.
  apply (C3_clone_args_independent (sampleStore "cdn.example.com" "app") 1
           (mkRequest "" "cdn.example.com" "app" 1) ∅
           "StartTime" "2015-12-01T17:36:00Z");
    reflexivity.
Defined.


Example queryNames_stream_name :
  StreamUrl (H := sampleWorld)
    (Stream.mk "cdn.example.com" "app" "s?auth_key=forged" DefaultVideoCenter None false 1)
    None emptyStore
  = Some (("rtmp://video-center.alivecdn.com/app/s?auth_key=forged?vhost=cdn.example.com",
           None), emptyStore) ∧
  queryNames "rtmp://video-center.alivecdn.com/app/s?auth_key=forged?vhost=cdn.example.com"
  = ["auth_key"].
Proof. split; vm_compute; reflexivity. Qed.


Lemma C4_witness :
  ∃ (c0 : loc) (σ0 σ1 : Store) (before : Request),
    Clone 1 (sampleStore "cdn.example.com" "app") = Some (c0, σ0) ∧
    c0 ≠ 1%positive ∧
    requests σ0 !! c0 = Some before ∧
    Action before = "" ∧
    SetAction 1 "ForbidLiveStream" σ0 = Some (1%positive, σ1) ∧
    requests σ1 !! c0 = Some before ∧
    ∃ (c1 : loc) (σ2 : Store) (after : Request),
      Clone 1 σ1 = Some (c1, σ2) ∧
      requests σ2 !! c1 = Some after ∧
      Action after = "ForbidLiveStream" ∧
      requests σ2 !! c0 = Some before.
Proof.
  apply (C4_SetAction_frame (sampleStore "cdn.example.com" "app") 1
           (mkLive 1 1 None DefaultVideoCenter)
           (mkRequest "" "cdn.example.com" "app" 1) ∅ "ForbidLiveStream");
    reflexivity.
Defined.

Lemma sampleStore_controller (domain app : string) :
  controller (sampleStore domain app) 1 (mkLive 1 1 None DefaultVideoCenter)
    (mkRequest "" domain app 1) ∅.
Proof. repeat split. by eexists. Defined.

Lemma C5_witness :
  propagates (H := sampleWorld) 1 "old"
    (StreamsPublishList (H := sampleWorld) 1 1448991360 1448994960 "old")
    (sampleStore "cdn.example.com" "app") ∧
  propagates (H := sampleWorld) 1 "old"
    (ForbidLiveStream (H := sampleWorld) 1 "blocked" "s" "publisher" None "old")
    (sampleStore "cdn.example.com" "app").
Proof.
  destruct (C5_Query_error_propagated (H := sampleWorld)
              (sampleStore "cdn.example.com" "app") 1
              (mkLive 1 1 None DefaultVideoCenter)
              (mkRequest "" "cdn.example.com" "app" 1) ∅
              1448991360 1448994960 "blocked" "s" "publisher" None "old"
              (sampleStore_controller "cdn.example.com" "app")
              ltac:(discriminate))
    as (Hpublish & _ & _ & _ & Hforbid & _ & _).
  split; [exact Hpublish | exact Hforbid].
Defined.

Lemma C8_witness :
  GetStream 1 "" (sampleSignedStore "cdn.example.com" "app")
  = Some (None, sampleSignedStore "cdn.example.com" "app") ∧
  ∃ (s : Stream.t) (σ' : Store) (c' : loc),
    GetStream 1 "s" (sampleSignedStore "cdn.example.com" "app") = Some (Some s, σ') ∧
    Stream.signOn s = true ∧
    Stream.streamCert s = Some c' ∧
    c' ≠ 1%positive ∧
    credentials σ' !! c' = Some (mkStreamCredentials "k3y" 3600) ∧
    credentials σ' !! 1%positive = Some (mkStreamCredentials "k3y" 3600).
Proof.
  destruct (C8_GetStream (sampleSignedStore "cdn.example.com" "app") 1
              (mkLive 1 1 (Some 1%positive) DefaultVideoCenter)
              (mkRequest "" "cdn.example.com" "app" 1) "s" eq_refl eq_refl)
    as [Hnil Hstream].
  { intros c [= <-]. by eexists. }
  split; [exact Hnil|].
  destruct Hstream as (s & σ' & Erun & _ & _ & _ & _ & _ & Hsign & c' & Ec & Hne & _ & En & Eo);
    [discriminate|].
  exists s, σ', c'. split; [exact Erun|]. split; [by apply Hsign|].
  split; [exact Ec|]. split; [exact Hne|]. split; [exact En | exact Eo].
Defined.

Lemma C9_witness :
  ∃ (out : string * option error) (σ' : Store) (s : Sent),
    StreamsBlockList (H := sampleWorld) 1 "old" (sampleStore "cdn.example.com" "app")
    = Some (out, σ') ∧
    network σ' = [s] ∧
    sentAppName s = "" ∧
    requests σ' !! 1%positive
    = Some (mkRequest "DescribeLiveStreamsBlockList" "cdn.example.com" "app" 1) ∧
    bags σ' !! 1%positive = Some ∅.
Proof.
  destruct (C9_StreamsBlockList_blanks_clone (H := sampleWorld)
              (sampleStore "cdn.example.com" "app") 1
              (mkLive 1 1 None DefaultVideoCenter)
              (mkRequest "" "cdn.example.com" "app" 1) ∅ "old"
              (sampleStore_controller "cdn.example.com" "app"))
    as (out & σ' & s & Erun & _ & En & Eapp & _ & _ & _ & Et & Eb & _).
  exists out, σ', s. split; [exact Erun|]. split; [exact En|].
  split; [exact Eapp|]. split; [exact Et | exact Eb].
Defined.

(** ** One round trip of each method *)

Ltac template_lookup :=
  proj;
  repeat (rewrite lookup_insert_ne by (eapply fresh_lookup_ne, retitled_requests));
  apply cloned_requests_old, retitled_requests.

Ltac bag_lookup E :=
  proj; cbn [Args];
  repeat (rewrite lookup_insert_ne by (eapply fresh_lookup_ne; exact E));
  apply cloned_bags_old; exact E.

(** Run a method body down to its [Query] and read off what it leaves. *)
Ltac answer E :=
  eexists _, _; split;
  [ repeat step; eapply Query_run; lookups
  | unfold answered; proj; cbn [via sentAction sentDomainName sentAppName sentArgs];
    do 4 (split; [reflexivity|]);
    split; [template_lookup|];
    split; [bag_lookup E|];
    by repeat split ].

Section rounds.
Context `{Collaborators}.

Lemma ForbidLiveStream_answered (σ : Store) (l : loc) (L : Live) (r : Request)
    (b : gmap string string) (appName streamName liveStreamType : string)
    (resumeTime : option Time) (resp : Resp) :
  controller σ l L r b →
  appName ≠ "" →
  ∃ (out : Resp * option error) (σ' : Store),
    ForbidLiveStream l appName streamName liveStreamType resumeTime resp σ
    = Some (out, σ') ∧
    answered σ L r b resp
      (mkSent (rpc L) ForbidLiveStreamAction (DomainName r) appName
         (match resumeTime with
          | Some t => <["ResumeTime" := GetISO8601TimeStamp t]>
          | None => id
          end (<["LiveStreamType" := liveStreamType]>
                 (<["StreamName" := streamName]> b))))
      out σ'.
Proof.
  intros (EL & Ec & Er & Eb) Happ.
  unfold ForbidLiveStream. rewrite decide_False by done.
  destruct resumeTime as [t|]; answer Eb.
Qed.

Lemma ResumeLiveStream_answered (σ : Store) (l : loc) (L : Live) (r : Request)
    (b : gmap string string) (appName streamName liveStreamType : string)
    (resp : Resp) :
  controller σ l L r b →
  appName ≠ "" →
  ∃ (out : Resp * option error) (σ' : Store),
    ResumeLiveStream l appName streamName liveStreamType resp σ = Some (out, σ') ∧
    answered σ L r b resp
      (mkSent (rpc L) ResumeLiveStreamAction (DomainName r) appName
         (<["LiveStreamType" := liveStreamType]> (<["StreamName" := streamName]> b)))
      out σ'.
Proof.
  intros (EL & Ec & Er & Eb) Happ.
  unfold ResumeLiveStream. rewrite decide_False by done. answer Eb.
Qed.

Lemma StreamsPublishList_answered (σ : Store) (l : loc) (L : Live) (r : Request)
    (b : gmap string string) (startTime endTime : Time) (resp : Resp) :
  controller σ l L r b →
  ∃ (out : Resp * option error) (σ' : Store),
    StreamsPublishList l startTime endTime resp σ = Some (out, σ') ∧
    answered σ L r b resp
      (mkSent (rpc L) DescribeLiveStreamsPublishListAction (DomainName r) (AppName r)
         (<["EndTime" := GetISO8601TimeStamp endTime]>
            (<["StartTime" := GetISO8601TimeStamp startTime]> b)))
      out σ'.
Proof. intros (EL & Ec & Er & Eb). unfold StreamsPublishList. answer Eb. Qed.

Lemma StreamsControlHistory_answered (σ : Store) (l : loc) (L : Live) (r : Request)
    (b : gmap string string) (startTime endTime : Time) (resp : Resp) :
  controller σ l L r b →
  ∃ (out : Resp * option error) (σ' : Store),
    StreamsControlHistory l startTime endTime resp σ = Some (out, σ') ∧
    answered σ L r b resp
      (mkSent (rpc L) DescribeLiveStreamsControlHistoryAction (DomainName r)
         (AppName r)
         (<["EndTime" := GetISO8601TimeStamp endTime]>
            (<["StartTime" := GetISO8601TimeStamp startTime]> b)))
      out σ'.
Proof. intros (EL & Ec & Er & Eb). unfold StreamsControlHistory. answer Eb. Qed.

Lemma StreamsOnlineList_answered (σ : Store) (l : loc) (L : Live) (r : Request)
    (b : gmap string string) (resp : Resp) :
  controller σ l L r b →
  ∃ (out : Resp * option error) (σ' : Store),
    StreamsOnlineList l resp σ = Some (out, σ') ∧
    answered σ L r b resp
      (mkSent (rpc L) DescribeLiveStreamsOnlineListAction (DomainName r) (AppName r) b)
      out σ'.
Proof. intros (EL & Ec & Er & Eb). unfold StreamsOnlineList. answer Eb. Qed.

Lemma StreamsBlockList_answered (σ : Store) (l : loc) (L : Live) (r : Request)
    (b : gmap string string) (resp : Resp) :
  controller σ l L r b →
  ∃ (out : Resp * option error) (σ' : Store),
    StreamsBlockList l resp σ = Some (out, σ') ∧
    answered σ L r b resp
      (mkSent (rpc L) DescribeLiveStreamsBlockListAction (DomainName r) "" b)
      out σ'.
Proof. intros (EL & Ec & Er & Eb). unfold StreamsBlockList. answer Eb. Qed.

Lemma answered_controller (σ σ' : Store) (l : loc) (L : Live) (r : Request)
    (b : gmap string string) (resp : Resp) (s : Sent) (out : Resp * option error) :
  controller σ l L r b →
  answered σ L r b resp s out σ' →
  controller σ' l L (mkRequest (sentAction s) (DomainName r) (AppName r) (Args r)) b.
Proof.
  intros (EL & Ec & Er & Eb) (_ & _ & _ & _ & Et & Ebag & El & Ecl & _).
  unfold controller. rewrite El, Ecl. by repeat split.
Qed.

Lemma answered_keeps (m : M (Resp * option error)) (σ : Store) (l : loc) (L : Live)
    (r : Request) (b : gmap string string) (resp : Resp) (s : Sent) :
  controller σ l L r b →
  (∃ (out : Resp * option error) (σ' : Store),
      m σ = Some (out, σ') ∧ answered σ L r b resp s out σ') →
  keepsController m σ l L r b.
Proof.
  intros Hc (out & σ' & Erun & Ha). exists out, σ', (sentAction s).
  split; [exact Erun|]. split; [by eapply answered_controller|].
  destruct Ha as (_ & -> & _). rewrite length_app. cbn. lia.
Qed.

End rounds.

(** ** What the methods put on the network *)

Section wire.
Context `{Collaborators}.

(** X1: [ForbidLiveStream] with a non-empty app name makes one query,
    under the forbid action, with the caller's app name in place of the
    controller's default and the template's domain; its arguments are the
    template's with [StreamName] and [LiveStreamType] set, and [ResumeTime]
    set only when a resume time is given.  The caller gets that query's
    answer, and the controller's default app name is what it was. *)
Theorem X1_ForbidLiveStream_request (σ : Store) (l : loc) (L : Live) (r : Request)
    (b : gmap string string) (appName streamName liveStreamType : string)
    (resumeTime : option Time) (resp : Resp) :
  controller σ l L r b →
  appName ≠ "" →
  ∃ (out : Resp * option error) (σ' : Store) (s : Sent),
    ForbidLiveStream l appName streamName liveStreamType resumeTime resp σ
    = Some (out, σ') ∧
    out = roundTrip (network σ) s resp ∧
    network σ' = network σ ++ [s] ∧
    sentAction s = ForbidLiveStreamAction ∧
    sentAppName s = appName ∧
    sentDomainName s = DomainName r ∧
    sentArgs s !! "StreamName" = Some streamName ∧
    sentArgs s !! "LiveStreamType" = Some liveStreamType ∧
    sentArgs s !! "ResumeTime"
    = match resumeTime with
      | Some t => Some (GetISO8601TimeStamp t)
      | None => b !! "ResumeTime"
      end ∧
    (∀ k : string,
        k ≠ "StreamName" → k ≠ "LiveStreamType" → k ≠ "ResumeTime" →
        sentArgs s !! k = b !! k) ∧
    GetAppName l σ' = Some (AppName r, σ').
Proof.
  intros Hc Happ.
  destruct (ForbidLiveStream_answered σ l L r b appName streamName liveStreamType
              resumeTime resp Hc Happ)
    as (out & σ' & Erun & Ha).
  pose proof (answered_controller _ _ _ _ _ _ _ _ _ Hc Ha) as (EL' & _ & Er' & _).
  destruct Ha as (Eout & Enet & _).
  eexists out, σ', _. split; [exact Erun|]. split; [exact Eout|].
  split; [exact Enet|]. cbn [sentAction sentAppName sentDomainName sentArgs].
  do 3 (split; [reflexivity|]).
  split; [|split; [|split; [|split]]].
  - destruct resumeTime; cbn [id]; by simplify_map_eq.
  - destruct resumeTime; cbn [id]; by simplify_map_eq.
  - destruct resumeTime; cbn [id]; by simplify_map_eq.
  - intros k H1 H2 H3. destruct resumeTime; cbn [id]; by simplify_map_eq.
  - unfold GetAppName.
    rewrite (bind_run _ (loadLive_run _ _ _ EL')).
    by rewrite (bind_run _ (loadRequest_run _ _ _ Er')).
Qed.

(** X2: [ResumeLiveStream] with a non-empty app name makes one query, under
    the resume action, with the caller's app name and the template's
    domain; its arguments are the template's with [StreamName] and
    [LiveStreamType] set and nothing else changed: it never sets
    [ResumeTime]. *)
Theorem X2_ResumeLiveStream_request (σ : Store) (l : loc) (L : Live) (r : Request)
    (b : gmap string string) (appName streamName liveStreamType : string)
    (resp : Resp) :
  controller σ l L r b →
  appName ≠ "" →
  ∃ (out : Resp * option error) (σ' : Store) (s : Sent),
    ResumeLiveStream l appName streamName liveStreamType resp σ = Some (out, σ') ∧
    out = roundTrip (network σ) s resp ∧
    network σ' = network σ ++ [s] ∧
    sentAction s = ResumeLiveStreamAction ∧
    sentAppName s = appName ∧
    sentDomainName s = DomainName r ∧
    sentArgs s !! "StreamName" = Some streamName ∧
    sentArgs s !! "LiveStreamType" = Some liveStreamType ∧
    (∀ k : string,
        k ≠ "StreamName" → k ≠ "LiveStreamType" → sentArgs s !! k = b !! k) ∧
    GetAppName l σ' = Some (AppName r, σ').
Proof.
  intros Hc Happ.
  destruct (ResumeLiveStream_answered σ l L r b appName streamName liveStreamType
              resp Hc Happ)
    as (out & σ' & Erun & Ha).
  pose proof (answered_controller _ _ _ _ _ _ _ _ _ Hc Ha) as (EL' & _ & Er' & _).
  destruct Ha as (Eout & Enet & _).
  eexists out, σ', _. split; [exact Erun|]. split; [exact Eout|].
  split; [exact Enet|]. cbn [sentAction sentAppName sentDomainName sentArgs].
  do 3 (split; [reflexivity|]).
  split; [by simplify_map_eq|]. split; [by simplify_map_eq|].
  split; [intros k H1 H2; by simplify_map_eq|].
  unfold GetAppName.
  rewrite (bind_run _ (loadLive_run _ _ _ EL')).
  by rewrite (bind_run _ (loadRequest_run _ _ _ Er')).
Qed.

(** X3: the two windowed list queries, [StreamsPublishList] and
    [StreamsControlHistory], each make one query under their own action with
    the controller's default app name and domain; the arguments are the
    template's with [StartTime] and [EndTime] set to the formatted
    bounds. *)
Theorem X3_windowed_list_requests (σ : Store) (l : loc) (L : Live) (r : Request)
    (b : gmap string string) (startTime endTime : Time) (resp : Resp) :
  controller σ l L r b →
  (∃ (out : Resp * option error) (σ' : Store) (s : Sent),
      StreamsPublishList l startTime endTime resp σ = Some (out, σ') ∧
      out = roundTrip (network σ) s resp ∧
      network σ' = network σ ++ [s] ∧
      s = mkSent (rpc L) DescribeLiveStreamsPublishListAction (DomainName r)
            (AppName r) (sentArgs s) ∧
      sentArgs s !! "StartTime" = Some (GetISO8601TimeStamp startTime) ∧
      sentArgs s !! "EndTime" = Some (GetISO8601TimeStamp endTime) ∧
      (∀ k : string, k ≠ "StartTime" → k ≠ "EndTime" → sentArgs s !! k = b !! k)) ∧
  (∃ (out : Resp * option error) (σ' : Store) (s : Sent),
      StreamsControlHistory l startTime endTime resp σ = Some (out, σ') ∧
      out = roundTrip (network σ) s resp ∧
      network σ' = network σ ++ [s] ∧
      s = mkSent (rpc L) DescribeLiveStreamsControlHistoryAction (DomainName r)
            (AppName r) (sentArgs s) ∧
      sentArgs s !! "StartTime" = Some (GetISO8601TimeStamp startTime) ∧
      sentArgs s !! "EndTime" = Some (GetISO8601TimeStamp endTime) ∧
      (∀ k : string, k ≠ "StartTime" → k ≠ "EndTime" → sentArgs s !! k = b !! k)).
Proof.
  intros Hc. split.
  - destruct (StreamsPublishList_answered σ l L r b startTime endTime resp Hc)
      as (out & σ' & Erun & Eout & Enet & _).
    eexists out, σ', _. split; [exact Erun|]. split; [exact Eout|].
    split; [exact Enet|]. cbn [sentArgs]. split; [reflexivity|].
    split; [by simplify_map_eq|]. split; [by simplify_map_eq|].
    intros k H1 H2. by simplify_map_eq.
  - destruct (StreamsControlHistory_answered σ l L r b startTime endTime resp Hc)
      as (out & σ' & Erun & Eout & Enet & _).
    eexists out, σ', _. split; [exact Erun|]. split; [exact Eout|].
    split; [exact Enet|]. cbn [sentArgs]. split; [reflexivity|].
    split; [by simplify_map_eq|]. split; [by simplify_map_eq|].
    intros k H1 H2. by simplify_map_eq.
Qed.

End wire.

(** ** Calls in sequence *)

Section sequences.
Context `{Collaborators}.

(** X4: every query method keeps the controller in working order: it
    returns after exactly one more query, and afterwards the controller, its
    client, and its template with the same domain, default app name and bag
    contents are still there ([ForbidLiveStream] and [ResumeLiveStream] for
    a non-empty app name). *)
Theorem X4_methods_keep_controller (σ : Store) (l : loc) (L : Live) (r : Request)
    (b : gmap string string) (startTime endTime : Time)
    (appName streamName liveStreamType : string) (resumeTime : option Time)
    (resp : Resp) :
  controller σ l L r b →
  appName ≠ "" →
  keepsController (StreamsPublishList l startTime endTime resp) σ l L r b ∧
  keepsController (StreamsOnlineList l resp) σ l L r b ∧
  keepsController (StreamsBlockList l resp) σ l L r b ∧
  keepsController (StreamsControlHistory l startTime endTime resp) σ l L r b ∧
  keepsController
    (ForbidLiveStream l appName streamName liveStreamType resumeTime resp) σ l L r b ∧
  keepsController
    (ResumeLiveStream l appName streamName liveStreamType resp) σ l L r b.
Proof.
  intros Hc Happ.
  split; [|split; [|split; [|split; [|split]]]];
    (eapply answered_keeps; [exact Hc|]).
  - by apply StreamsPublishList_answered.
  - by apply StreamsOnlineList_answered.
  - by apply StreamsBlockList_answered.
  - by apply StreamsControlHistory_answered.
  - by apply ForbidLiveStream_answered.
  - by apply ResumeLiveStream_answered.
Qed.

(** X5: what one call writes on its request does not reach the next call:
    after a [StreamsPublishList] or a [ForbidLiveStream], a
    [StreamsOnlineList] on the same controller sends the template's own
    arguments, without the window or the stream of the call before, and the
    controller's default app name, not the one the forbid call was given. *)
Theorem X5_calls_do_not_leak (σ : Store) (l : loc) (L : Live) (r : Request)
    (b : gmap string string) (startTime endTime : Time)
    (appName streamName liveStreamType : string) (resumeTime : option Time)
    (resp1 resp2 : Resp) :
  controller σ l L r b →
  appName ≠ "" →
  (∃ (out : Resp * option error) (σ' : Store) (s1 : Sent),
      (StreamsPublishList l startTime endTime resp1;;
       StreamsOnlineList l resp2) σ = Some (out, σ') ∧
      network σ'
      = network σ ++
        [s1; mkSent (rpc L) DescribeLiveStreamsOnlineListAction (DomainName r)
               (AppName r) b] ∧
      sentArgs s1 !! "StartTime" = Some (GetISO8601TimeStamp startTime)) ∧
  (∃ (out : Resp * option error) (σ' : Store) (s1 : Sent),
      (ForbidLiveStream l appName streamName liveStreamType resumeTime resp1;;
       StreamsOnlineList l resp2) σ = Some (out, σ') ∧
      network σ'
      = network σ ++
        [s1; mkSent (rpc L) DescribeLiveStreamsOnlineListAction (DomainName r)
               (AppName r) b] ∧
      sentAppName s1 = appName ∧
      sentArgs s1 !! "StreamName" = Some streamName).
Proof.
  intros Hc Happ. split.
  - destruct (StreamsPublishList_answered σ l L r b startTime endTime resp1 Hc)
      as (out1 & σ1 & Erun1 & Ha1).
    pose proof (answered_controller _ _ _ _ _ _ _ _ _ Hc Ha1) as Hc1.
    destruct (StreamsOnlineList_answered σ1 l L _ b resp2 Hc1)
      as (out2 & σ2 & Erun2 & Ha2).
    destruct Ha1 as (_ & Enet1 & _). destruct Ha2 as (_ & Enet2 & _).
    eexists out2, σ2, _. rewrite (bind_run _ Erun1).
    split; [exact Erun2|]. rewrite Enet2, Enet1, <- app_assoc.
    split; [reflexivity|]. cbn [sentArgs]. by simplify_map_eq.
  - destruct (ForbidLiveStream_answered σ l L r b appName streamName
                liveStreamType resumeTime resp1 Hc Happ)
      as (out1 & σ1 & Erun1 & Ha1).
    pose proof (answered_controller _ _ _ _ _ _ _ _ _ Hc Ha1) as Hc1.
    destruct (StreamsOnlineList_answered σ1 l L _ b resp2 Hc1)
      as (out2 & σ2 & Erun2 & Ha2).
    destruct Ha1 as (_ & Enet1 & _). destruct Ha2 as (_ & Enet2 & _).
    eexists out2, σ2, _. rewrite (bind_run _ Erun1).
    split; [exact Erun2|]. rewrite Enet2, Enet1, <- app_assoc.
    split; [reflexivity|]. cbn [sentAppName sentArgs]. split; [reflexivity|].
    destruct resumeTime; cbn [id]; by simplify_map_eq.
Qed.

End sequences.

(** ** Getters and setters *)

Section setters.
Context `{Collaborators}.

Lemma SetAppName_run (σ : Store) (l : loc) (L : Live) (r : Request) (a : string) :
  lives σ !! l = Some L →
  requests σ !! liveReq L = Some r →
  SetAppName l a σ
  = Some (l, setRequests σ
               (<[liveReq L := mkRequest (Action r) (DomainName r) a (Args r)]>
                  (requests σ))).
Proof. intros EL Er. unfold SetAppName. mrun. by rewrite EL, Er. Qed.

Lemma GetAppName_run (σ : Store) (l : loc) (L : Live) (r : Request) :
  lives σ !! l = Some L →
  requests σ !! liveReq L = Some r →
  GetAppName l σ = Some (AppName r, σ).
Proof. intros EL Er. unfold GetAppName. mrun. by rewrite EL, Er. Qed.

Lemma GetDomainName_run (σ : Store) (l : loc) (L : Live) (r : Request) :
  lives σ !! l = Some L →
  requests σ !! liveReq L = Some r →
  GetDomainName l σ = Some (DomainName r, σ).
Proof. intros EL Er. unfold GetDomainName. mrun. by rewrite EL, Er. Qed.

Lemma SetVideoCenter_run (σ : Store) (l : loc) (L : Live) (dns : string) :
  lives σ !! l = Some L →
  SetVideoCenter l dns σ
  = Some (l, setLives σ
               (<[l := mkLive (rpc L) (liveReq L) (streamCert L) dns]> (lives σ))).
Proof. intros EL. unfold SetVideoCenter. mrun. by rewrite EL. Qed.

Lemma SetStreamCredentials_run (σ : Store) (l : loc) (L : Live) (cert : option loc) :
  lives σ !! l = Some L →
  SetStreamCredentials l cert σ
  = Some (l, setLives σ
               (<[l := mkLive (rpc L) (liveReq L) cert (videoCenterDns L)]> (lives σ))).
Proof. intros EL. unfold SetStreamCredentials. mrun. by rewrite EL. Qed.

Lemma GetStream_unsigned_run (σ : Store) (l : loc) (L : Live) (r : Request)
    (streamName : string) :
  lives σ !! l = Some L →
  requests σ !! liveReq L = Some r →
  streamCert L = None →
  streamName ≠ "" →
  GetStream l streamName σ
  = Some (Some (Stream.mk (DomainName r) (AppName r) streamName (videoCenterDns L)
                  None false l), σ).
Proof.
  intros EL Er Ecert Hname. unfold GetStream. rewrite decide_False by done.
  mrun. rewrite EL, Ecert, Er. reflexivity.
Qed.

Lemma GetStream_signed_run (σ : Store) (l c : loc) (L : Live) (r : Request)
    (v : StreamCredentials) (streamName : string) :
  lives σ !! l = Some L →
  requests σ !! liveReq L = Some r →
  streamCert L = Some c →
  credentials σ !! c = Some v →
  streamName ≠ "" →
  GetStream l streamName σ
  = Some (Some (Stream.mk (DomainName r) (AppName r) streamName (videoCenterDns L)
                  (Some (fresh (dom (credentials σ)))) true l),
          setCredentials σ (<[fresh (dom (credentials σ)) := v]> (credentials σ))).
Proof.
  intros EL Er Ecert Ev Hname. unfold GetStream, StreamCredentials_Clone.
  rewrite decide_False by done.
  mrun. rewrite EL, Ecert, Ev. proj. rewrite Er. reflexivity.
Qed.

(** X6: [SetAppName] then [GetAppName] reads back the name set, and
    [GetDomainName] the domain as before; the setter writes the app name of
    the shared template and nothing else: the template keeps action, domain
    and bag, every other request (a clone taken earlier) is as it was, and
    so are controllers, bags and the list of queries sent. *)
Theorem X6_SetAppName_GetAppName (σ : Store) (l : loc) (L : Live) (r : Request)
    (a : string) :
  lives σ !! l = Some L →
  requests σ !! liveReq L = Some r →
  ∃ σ' : Store,
    SetAppName l a σ = Some (l, σ') ∧
    GetAppName l σ' = Some (a, σ') ∧
    GetDomainName l σ' = Some (DomainName r, σ') ∧
    requests σ' !! liveReq L = Some (mkRequest (Action r) (DomainName r) a (Args r)) ∧
    (∀ p : loc, p ≠ liveReq L → requests σ' !! p = requests σ !! p) ∧
    lives σ' = lives σ ∧ clients σ' = clients σ ∧ bags σ' = bags σ ∧
    credentials σ' = credentials σ ∧ network σ' = network σ.
Proof.
  intros EL Er.
  set (σ' := setRequests σ
               (<[liveReq L := mkRequest (Action r) (DomainName r) a (Args r)]>
                  (requests σ))).
  assert (requests σ' !! liveReq L
          = Some (mkRequest (Action r) (DomainName r) a (Args r))) as Er'
    by (subst σ'; proj; apply lookup_insert_eq).
  exists σ'. split; [by apply SetAppName_run|].
  split; [exact (GetAppName_run σ' l L _ EL Er')|].
  split; [exact (GetDomainName_run σ' l L _ EL Er')|].
  split; [exact Er'|]. subst σ'. proj.
  split; [intros p Hp; by rewrite lookup_insert_ne|]. done.
Qed.

Lemma SetAppName_controller (σ : Store) (l : loc) (L : Live) (r : Request)
    (b : gmap string string) (a : string) :
  controller σ l L r b →
  controller
    (setRequests σ
       (<[liveReq L := mkRequest (Action r) (DomainName r) a (Args r)]> (requests σ)))
    l L (mkRequest (Action r) (DomainName r) a (Args r)) b.
Proof.
  intros (EL & Ec & Er & Eb). unfold controller. proj.
  rewrite lookup_insert_eq. by repeat split.
Qed.

(** X7: the app name set with [SetAppName] is the one the [WithPublisher]
    calls use afterwards: set to the empty string, both are refused without
    a query; set to anything else, [ForbidLiveStreamWithPublisher] sends
    that name with the stream name and the stream type [publisher]. *)
Theorem X7_SetAppName_then_WithPublisher (σ : Store) (l : loc) (L : Live)
    (r : Request) (b : gmap string string) (a streamName : string)
    (resumeTime : option Time) (resp : Resp) :
  controller σ l L r b →
  (∃ σ' : Store,
      (SetAppName l "";; ForbidLiveStreamWithPublisher l streamName resumeTime resp) σ
      = Some ((resp, Some (errors_New "appName should not to be empty")), σ') ∧
      (SetAppName l "";; ResumeLiveStreamWithPublisher l streamName resp) σ
      = Some ((resp, Some (errors_New "appName should not to be empty")), σ') ∧
      network σ' = network σ) ∧
  (a ≠ "" →
   ∃ (out : Resp * option error) (σ' : Store) (s : Sent),
     (SetAppName l a;; ForbidLiveStreamWithPublisher l streamName resumeTime resp) σ
     = Some (out, σ') ∧
     out = roundTrip (network σ) s resp ∧
     network σ' = network σ ++ [s] ∧
     sentAction s = ForbidLiveStreamAction ∧
     sentAppName s = a ∧
     sentArgs s !! "StreamName" = Some streamName ∧
     sentArgs s !! "LiveStreamType" = Some "publisher").
Proof.
  intros Hc. pose proof Hc as (EL & Ec & Er & Eb). split.
  - pose proof (SetAppName_controller σ l L r b "" Hc) as (EL' & _ & Er' & _).
    eexists. rewrite !(bind_run _ (SetAppName_run _ _ _ _ "" EL Er)).
    unfold ForbidLiveStreamWithPublisher, ResumeLiveStreamWithPublisher.
    rewrite !(bind_run _ (loadLive_run _ _ _ EL')),
      !(bind_run _ (loadRequest_run _ _ _ Er')).
    by repeat split.
  - intros Ha.
    pose proof (SetAppName_controller σ l L r b a Hc) as Hc'.
    pose proof Hc' as (EL' & _ & Er' & _).
    destruct (ForbidLiveStream_answered _ l L _ b a streamName "publisher"
                resumeTime resp Hc' Ha)
      as (out & σ' & Erun & Eout & Enet & _).
    eexists out, σ', _. rewrite (bind_run _ (SetAppName_run _ _ _ _ a EL Er)).
    unfold ForbidLiveStreamWithPublisher.
    rewrite (bind_run _ (loadLive_run _ _ _ EL')),
      (bind_run _ (loadRequest_run _ _ _ Er')).
    split; [exact Erun|]. split; [exact Eout|]. split; [exact Enet|].
    cbn [sentAction sentAppName sentArgs]. do 2 (split; [reflexivity|]).
    destruct resumeTime; cbn [id]; by simplify_map_eq.
Qed.

(** X8: the setters of the template compose as writes to separate fields
    of one object: of two [SetAction] calls the later wins, and [SetAppName]
    and [SetAction] give the same store in either order. *)
Theorem X8_template_setters_compose (σ : Store) (l : loc) (L : Live) (r : Request)
    (a a' n : string) :
  lives σ !! l = Some L →
  requests σ !! liveReq L = Some r →
  ∃ σ1 σ2 : Store,
    SetAction l a' σ = Some (l, σ1) ∧
    (SetAction l a;; SetAction l a') σ = Some (l, σ1) ∧
    (SetAppName l n;; SetAction l a) σ = Some (l, σ2) ∧
    (SetAction l a;; SetAppName l n) σ = Some (l, σ2) ∧
    requests σ2 !! liveReq L = Some (mkRequest a (DomainName r) n (Args r)).
Proof.
  intros EL Er. eexists _, _.
  split; [by eapply SetAction_run|].
  rewrite !(bind_run _ (SetAction_run _ _ _ _ a EL Er)).
  rewrite (bind_run _ (SetAppName_run _ _ _ _ n EL Er)).
  split; [|split; [|split]].
  - erewrite SetAction_run; [|exact EL|apply retitled_requests].
    unfold retitled. proj. cbn [DomainName AppName Args].
    by rewrite insert_insert_eq.
  - erewrite SetAction_run; [reflexivity|exact EL|].
    proj. apply lookup_insert_eq.
  - erewrite SetAppName_run; [|exact EL|apply retitled_requests].
    unfold retitled, setRequests. proj. cbn [Action DomainName AppName Args].
    by rewrite !insert_insert_eq.
  - unfold retitled. proj. cbn [Action DomainName AppName Args].
    apply lookup_insert_eq.
Qed.

End setters.

(** ** Streams *)

Section streams.
Context `{Collaborators}.

(** X9: every [GetStream] on a signing controller hands out credentials of
    its own: two calls give two streams whose credentials sit at two
    different locations, both different from the controller's, all three
    with the same contents; the calls touch nothing else: controllers,
    clients, requests, bags and the list of queries sent are as before. *)
Theorem X9_GetStream_own_credentials (σ : Store) (l c : loc) (L : Live) (r : Request)
    (v : StreamCredentials) (name1 name2 : string) :
  lives σ !! l = Some L →
  requests σ !! liveReq L = Some r →
  streamCert L = Some c →
  credentials σ !! c = Some v →
  name1 ≠ "" →
  name2 ≠ "" →
  ∃ (s1 s2 : Stream.t) (σ1 σ2 : Store) (c1 c2 : loc),
    GetStream l name1 σ = Some (Some s1, σ1) ∧
    GetStream l name2 σ1 = Some (Some s2, σ2) ∧
    Stream.streamCert s1 = Some c1 ∧ Stream.streamCert s2 = Some c2 ∧
    c1 ≠ c2 ∧ c1 ≠ c ∧ c2 ≠ c ∧
    credentials σ2 !! c1 = Some v ∧
    credentials σ2 !! c2 = Some v ∧
    credentials σ2 !! c = Some v ∧
    lives σ2 = lives σ ∧ clients σ2 = clients σ ∧ requests σ2 = requests σ ∧
    bags σ2 = bags σ ∧ network σ2 = network σ.
Proof.
  intros EL Er Ecert Ev H1 H2.
  set (c1 := fresh (dom (credentials σ))).
  set (σ1 := setCredentials σ (<[c1 := v]> (credentials σ))).
  assert (c1 ≠ c) as Hc1 by (by eapply fresh_lookup_ne).
  assert (credentials σ1 !! c = Some v) as Ev1
    by (subst σ1; proj; by rewrite lookup_insert_ne).
  assert (credentials σ1 !! c1 = Some v) as Ev11
    by (subst σ1; proj; apply lookup_insert_eq).
  set (c2 := fresh (dom (credentials σ1))).
  assert (c2 ≠ c) as Hc2 by (by eapply fresh_lookup_ne).
  assert (c2 ≠ c1) as Hc21 by (by eapply fresh_lookup_ne).
  eexists _, _, σ1, _, c1, c2.
  split; [by eapply GetStream_signed_run|].
  split; [by eapply (GetStream_signed_run σ1)|].
  cbn [Stream.streamCert]. proj.
  do 2 (split; [reflexivity|]).
  split; [done|]. split; [done|]. split; [done|].
  split; [by rewrite lookup_insert_ne|].
  split; [apply lookup_insert_eq|].
  split; [by rewrite lookup_insert_ne|]. done.
Qed.

(** X10: a stream is built from what the controller holds at the moment of
    the call: after [SetAppName] and [SetVideoCenter], [GetStream] gives a
    stream with the app name and the live centre just set, the template's
    domain, the name asked for and a reference back to the controller;
    none of the three calls sends a query. *)
Theorem X10_setters_reach_streams (σ : Store) (l : loc) (L : Live) (r : Request)
    (a dns streamName : string) :
  lives σ !! l = Some L →
  requests σ !! liveReq L = Some r →
  (∀ c : loc, streamCert L = Some c → is_Some (credentials σ !! c)) →
  streamName ≠ "" →
  ∃ (s : Stream.t) (σ' : Store),
    (SetAppName l a;; SetVideoCenter l dns;; GetStream l streamName) σ
    = Some (Some s, σ') ∧
    Stream.appName s = a ∧
    Stream.videoCenterDns s = dns ∧
    Stream.domainName s = DomainName r ∧
    Stream.StreamName s = streamName ∧
    Stream.live s = l ∧
    Stream.signOn s = bool_decide (streamCert L ≠ None) ∧
    network σ' = network σ.
Proof.
  intros EL Er Ecert Hname.
  rewrite (bind_run _ (SetAppName_run _ _ _ _ a EL Er)).
  erewrite bind_run by (apply SetVideoCenter_run; proj; exact EL).
  destruct (streamCert L) as [c|] eqn:Ec.
  - destruct (Ecert c eq_refl) as [v Ev].
    eexists _, _. split.
    + eapply GetStream_signed_run; proj;
        [apply lookup_insert_eq | apply lookup_insert_eq | reflexivity
        | exact Ev | exact Hname].
    + by repeat split.
  - eexists _, _. split.
    + eapply GetStream_unsigned_run; proj;
        [apply lookup_insert_eq | apply lookup_insert_eq | reflexivity
        | exact Hname].
    + by repeat split.
Qed.

(** X11: [SetStreamCredentials] switches signing for the streams handed
    out afterwards: with [nil] the next stream has [signOn] false and no
    credentials and the credentials heap is untouched; with credentials
    that exist the next stream has [signOn] true and a copy of them at a
    new location.  The setter itself writes only the controller: the
    template, and so the default app name, is as before. *)
Theorem X11_SetStreamCredentials_switches_signing (σ : Store) (l c : loc) (L : Live)
    (r : Request) (v : StreamCredentials) (streamName : string) :
  lives σ !! l = Some L →
  requests σ !! liveReq L = Some r →
  credentials σ !! c = Some v →
  streamName ≠ "" →
  (∃ (s : Stream.t) (σ' : Store),
      (SetStreamCredentials l None;; GetStream l streamName) σ = Some (Some s, σ') ∧
      Stream.signOn s = false ∧ Stream.streamCert s = None ∧
      credentials σ' = credentials σ ∧ requests σ' = requests σ) ∧
  (∃ (s : Stream.t) (σ' : Store) (c' : loc),
      (SetStreamCredentials l (Some c);; GetStream l streamName) σ
      = Some (Some s, σ') ∧
      Stream.signOn s = true ∧ Stream.streamCert s = Some c' ∧
      c' ≠ c ∧ credentials σ' !! c' = Some v ∧ credentials σ' !! c = Some v ∧
      requests σ' = requests σ) ∧
  (∀ cert : option loc,
      ∃ σ' : Store,
        SetStreamCredentials l cert σ = Some (l, σ') ∧
        GetAppName l σ' = Some (AppName r, σ') ∧
        requests σ' = requests σ ∧ bags σ' = bags σ ∧
        credentials σ' = credentials σ ∧ network σ' = network σ).
Proof.
  intros EL Er Ev Hname. split; [|split].
  - rewrite (bind_run _ (SetStreamCredentials_run _ _ _ None EL)).
    eexists _, _. split.
    + eapply GetStream_unsigned_run; proj;
        [apply lookup_insert_eq | exact Er | reflexivity | exact Hname].
    + by repeat split.
  - rewrite (bind_run _ (SetStreamCredentials_run _ _ _ (Some c) EL)).
    eexists _, _, _. split.
    + eapply GetStream_signed_run; proj;
        [apply lookup_insert_eq | exact Er | reflexivity | exact Ev | exact Hname].
    + cbn [Stream.signOn Stream.streamCert]. proj.
      do 2 (split; [reflexivity|]).
      pose proof (fresh_lookup_ne _ _ _ Ev) as Hne.
      split; [exact Hne|]. split; [apply lookup_insert_eq|].
      split; [by rewrite lookup_insert_ne|done].
  - intros cert. eexists. split; [by apply SetStreamCredentials_run|].
    split; [|done].
    eapply GetAppName_run; proj; [apply lookup_insert_eq | exact Er].
Qed.

End streams.

(** ** Reading an error message back *)

Lemma string_app_inv_head (a x y : string) : a +:+ x = a +:+ y → x = y.
Proof.
  induction a as [|c a IH]; [done|].
  change (String c (a +:+ x) = String c (a +:+ y) → x = y).
  intros [= E]. by apply IH.
Qed.

Lemma string_app_inv_last (c : ascii) (a b : string) :
  a +:+ String c "" = b +:+ String c "" → a = b.
Proof.
  revert b. induction a as [|x a IH]; intros [|y b].
  - done.
  - change (String c "" = String y (b +:+ String c "") → "" = String y b).
    intros [= _ E]. by destruct b.
  - change (String x (a +:+ String c "") = String c "" → String x a = "").
    intros [= _ E]. by destruct a.
  - change (String x (a +:+ String c "") = String y (b +:+ String c "")
            → String x a = String y b).
    intros [= -> E]. f_equal. by apply IH.
Qed.

Lemma beforeFirst_app (c : ascii) (a b : string) :
  occurs c a = false → beforeFirst c (a +:+ String c b) = a.
Proof.
  induction a as [|x a IH]; intros Ha.
  - change (beforeFirst c (String c b) = ""). cbn [beforeFirst].
    by rewrite decide_True.
  - change (beforeFirst c (String x (a +:+ String c b)) = String x a).
    cbn [occurs beforeFirst] in *. destruct (decide (x = c)); [done|].
    by rewrite IH.
Qed.

(** A text is cut at the first [c] in one way only. *)
Lemma cut_unique (c : ascii) (a a' b b' : string) :
  occurs c a = false →
  occurs c a' = false →
  a +:+ String c b = a' +:+ String c b' →
  a = a' ∧ b = b'.
Proof.
  intros Ha Ha' E. split.
  - rewrite <- (beforeFirst_app c a b Ha), <- (beforeFirst_app c a' b' Ha').
    by rewrite E.
  - rewrite <- (afterFirst_app c a b Ha), <- (afterFirst_app c a' b' Ha').
    by rewrite E.
Qed.

Lemma occurs_pretty_N_go (x : N) (s : string) :
  occurs "010" s = false → occurs "010" (pretty_N_go x s) = false.
Proof.
  revert s. induction (N.lt_wf_0 x) as [x _ IH]; intros s Hs.
  assert (x = 0 ∨ 0 < x)%N as [->|Hx] by lia.
  - by rewrite pretty_N_go_0.
  - rewrite pretty_N_go_step by done. apply IH.
    + by apply N.div_lt.
    + cbn [occurs]. rewrite Hs. unfold pretty_N_char. by repeat case_match.
Qed.

(** The decimal rendering of an integer has no line feed. *)
Lemma occurs_pretty_Z (z : Z) : occurs "010" (pretty z) = false.
Proof.
  assert (∀ p : positive, occurs "010" (pretty p) = false) as Hpos.
  { intros p. unfold pretty, pretty_positive, pretty, pretty_N.
    rewrite decide_False by done. by apply occurs_pretty_N_go. }
  destruct z as [|p|p]; [done|apply Hpos|].
  change (occurs "010" ("-" +:+ pretty p) = false).
  by rewrite occurs_app, Hpos.
Qed.

Lemma Error_lines (e : aliyun.ErrorResponse) :
  aliyun.Error e =
    ("Aliyun API Error:" +:+ LF +:+ " RequestId: ") +:+ aliyun.RequestId e +:+
    String "010"
      (" Status Code: " +:+ pretty (aliyun.StatusCode e) +:+
       String "010"
         (" Code: " +:+ aliyun.Code e +:+
          String "010" (" Message: " +:+ aliyun.Message e +:+ String "010" ""))).
Proof. reflexivity. Qed.

(** X12: the text of [Error()] can be read back: for error responses whose
    request id and code are single-line, two responses with the same text
    have the same request id, status code, code and message.  [Recommend]
    and [HostId] are not part of the text and need not agree. *)
Theorem X12_Error_read_back (e1 e2 : aliyun.ErrorResponse) :
  occurs "010" (aliyun.RequestId e1) = false →
  occurs "010" (aliyun.RequestId e2) = false →
  occurs "010" (aliyun.Code e1) = false →
  occurs "010" (aliyun.Code e2) = false →
  aliyun.Error e1 = aliyun.Error e2 →
  aliyun.RequestId e1 = aliyun.RequestId e2 ∧
  aliyun.StatusCode e1 = aliyun.StatusCode e2 ∧
  aliyun.Code e1 = aliyun.Code e2 ∧
  aliyun.Message e1 = aliyun.Message e2.
Proof.
  intros HR1 HR2 HC1 HC2 E. rewrite !Error_lines in E.
  apply string_app_inv_head in E.
  apply cut_unique in E as [ER E]; [|done..].
  apply string_app_inv_head in E.
  apply cut_unique in E as [EP E]; [|apply occurs_pretty_Z..].
  apply string_app_inv_head in E.
  apply cut_unique in E as [EC E]; [|done..].
  apply string_app_inv_head, string_app_inv_last in E.
  split; [exact ER|]. split; [by apply (inj pretty)|]. by split.
Qed.

Example Error_ambiguous :
  aliyun.Error
    (aliyun.mkErrorResponse ("a" +:+ LF +:+ " Status Code: 1" +:+ LF +:+ " Code: b")
       "" "" "c" "m" 2)
  = aliyun.Error
      (aliyun.mkErrorResponse "a" "" ""
         ("b" +:+ LF +:+ " Status Code: 2" +:+ LF +:+ " Code: c") "m" 1).
Proof. vm_compute. reflexivity. Qed.

(** ** New controllers *)

Section construction.
Context `{Collaborators}.

(** X13: [NewLive] gives a controller with a template of its own: the app
    name and domain it was built with read back through [GetAppName] and
    [GetDomainName], its action is empty and its live centre the default;
    no query is sent; a controller that was there before is still in
    working order, and setting the app name of the new one leaves the app
    name of the old one as it was. *)
Theorem X13_NewLive_own_template (σ : Store) (keyId keySecret domainName appName : string)
    (cert : option loc) (l0 : loc) (L0 : Live) (r0 : Request)
    (b0 : gmap string string) (n : string) :
  controller σ l0 L0 r0 b0 →
  ∃ (l : loc) (σ' : Store) (L : Live) (r : Request),
    NewLive keyId keySecret domainName appName cert σ = Some (l, σ') ∧
    controller σ' l L r ∅ ∧
    GetAppName l σ' = Some (appName, σ') ∧
    GetDomainName l σ' = Some (domainName, σ') ∧
    Action r = "" ∧
    streamCert L = cert ∧
    videoCenterDns L = DefaultVideoCenter ∧
    network σ' = network σ ∧
    l ≠ l0 ∧ liveReq L ≠ liveReq L0 ∧ Args r ≠ Args r0 ∧
    controller σ' l0 L0 r0 b0 ∧
    ∃ σ'' : Store,
      SetAppName l n σ' = Some (l, σ'') ∧
      GetAppName l σ'' = Some (n, σ'') ∧
      GetAppName l0 σ'' = Some (AppName r0, σ'').
Proof.
  intros (EL0 & [cl0 Ec0] & Er0 & Eb0).
  pose proof (fresh_lookup_ne _ _ _ EL0) as Hl.
  pose proof (fresh_lookup_ne _ _ _ Ec0) as Hc.
  pose proof (fresh_lookup_ne _ _ _ Er0) as Hp.
  pose proof (fresh_lookup_ne _ _ _ Eb0) as Hb.
  set (l := fresh (dom (lives σ))) in *.
  set (c := fresh (dom (clients σ))) in *.
  set (p := fresh (dom (requests σ))) in *.
  set (b := fresh (dom (bags σ))) in *.
  set (L := mkLive c p cert DefaultVideoCenter).
  set (r := mkRequest "" domainName appName b).
  set (σ' := setLives
               (setRequests
                  (setBags (setClients σ (<[c := mkClient keyId keySecret false]> (clients σ)))
                     (<[b := ∅]> (bags σ)))
                  (<[p := r]> (requests σ)))
               (<[l := L]> (lives σ))).
  assert (lives σ' !! l = Some L) as EL by (subst σ'; proj; apply lookup_insert_eq).
  assert (requests σ' !! p = Some r) as Er by (subst σ'; proj; apply lookup_insert_eq).
  assert (lives σ' !! l0 = Some L0) as EL0'
    by (subst σ'; proj; by rewrite lookup_insert_ne).
  assert (requests σ' !! liveReq L0 = Some r0) as Er0'
    by (subst σ'; proj; by rewrite lookup_insert_ne).
  exists l, σ', L, r.
  split; [reflexivity|].
  split.
  { unfold controller. subst σ'. proj. cbn [rpc liveReq Args L r].
    rewrite !lookup_insert_eq. by repeat split. }
  split; [exact (GetAppName_run σ' l L r EL Er)|].
  split; [exact (GetDomainName_run σ' l L r EL Er)|].
  do 4 (split; [reflexivity|]).
  split; [exact Hl|]. split; [exact Hp|]. split; [exact Hb|].
  split.
  { unfold controller. split; [exact EL0'|]. split; [|split; [exact Er0'|]].
    - subst σ'. proj. rewrite lookup_insert_ne by done. by eexists.
    - subst σ'. proj. by rewrite lookup_insert_ne. }
  set (σ'' := setRequests σ'
                (<[liveReq L := mkRequest (Action r) (DomainName r) n (Args r)]>
                   (requests σ'))).
  assert (requests σ'' !! p = Some (mkRequest (Action r) (DomainName r) n (Args r)))
    as Er'' by (subst σ''; proj; apply lookup_insert_eq).
  assert (requests σ'' !! liveReq L0 = Some r0) as Er0''.
  { subst σ''. proj. cbn [liveReq L]. by rewrite lookup_insert_ne. }
  exists σ''. split; [exact (SetAppName_run σ' l L r n EL Er)|].
  split; [exact (GetAppName_run σ'' l L _ EL Er'')|].
  exact (GetAppName_run σ'' l0 L0 r0 EL0' Er0'').
Qed.

End construction.

(** ** The action field *)

Section action.
Context `{Collaborators}.

Lemma retitled_controller (σ : Store) (l : loc) (L : Live) (r : Request)
    (b : gmap string string) (a : string) :
  controller σ l L r b →
  controller (retitled σ (liveReq L) r a) l L
    (mkRequest a (DomainName r) (AppName r) (Args r)) b.
Proof.
  intros (EL & Ec & Er & Eb). unfold controller.
  rewrite retitled_lives, retitled_clients, retitled_bags.
  split; [done|]. split; [done|]. split; [apply retitled_requests|done].
Qed.

Lemma answered_actionUnseen (m : M (Resp * option error)) (σ : Store) (l : loc)
    (L : Live) (r : Request) (b : gmap string string) (resp : Resp) (s : Sent)
    (a : string) :
  controller σ l L r b →
  (∀ (σ0 : Store) (r0 : Request),
      controller σ0 l L r0 b →
      DomainName r0 = DomainName r → AppName r0 = AppName r → Args r0 = Args r →
      ∃ (out : Resp * option error) (σ' : Store),
        m σ0 = Some (out, σ') ∧ answered σ0 L r0 b resp s out σ') →
  actionUnseen m σ l a.
Proof.
  intros Hc Hm. pose proof Hc as (EL & Ec & Er & Eb).
  destruct (Hm σ r Hc eq_refl eq_refl eq_refl)
    as (out2 & σ2 & Erun2 & Eout2 & Enet2 & _ & _ & Et2 & _ & El2 & _).
  destruct (Hm _ _ (retitled_controller σ l L r b a Hc) eq_refl eq_refl eq_refl)
    as (out1 & σ1 & Erun1 & Eout1 & Enet1 & _ & _ & Et1 & _ & El1 & _).
  rewrite retitled_network in Eout1, Enet1. rewrite retitled_lives in El1.
  cbn [DomainName AppName Args] in Et1.
  exists out1, σ1, σ2, s.
  rewrite (bind_run _ (SetAction_run _ _ _ _ a EL Er)).
  split; [exact Erun1|]. split; [by rewrite Eout1, <- Eout2|].
  split; [exact Enet1|]. split; [exact Enet2|].
  unfold templateOf. by rewrite El1, El2, EL, Et1, Et2.
Qed.

(** X14: an action set with [SetAction] never reaches a query: every query
    method writes its own action on the template before cloning it, so with
    or without a [SetAction] before it the method sends the same query,
    returns the same outcome and leaves the same template
    ([ForbidLiveStream] and [ResumeLiveStream] for a non-empty app name). *)
Theorem X14_SetAction_never_sent (σ : Store) (l : loc) (L : Live) (r : Request)
    (b : gmap string string) (a : string) (startTime endTime : Time)
    (appName streamName liveStreamType : string) (resumeTime : option Time)
    (resp : Resp) :
  controller σ l L r b →
  appName ≠ "" →
  actionUnseen (StreamsPublishList l startTime endTime resp) σ l a ∧
  actionUnseen (StreamsOnlineList l resp) σ l a ∧
  actionUnseen (StreamsBlockList l resp) σ l a ∧
  actionUnseen (StreamsControlHistory l startTime endTime resp) σ l a ∧
  actionUnseen
    (ForbidLiveStream l appName streamName liveStreamType resumeTime resp) σ l a ∧
  actionUnseen (ResumeLiveStream l appName streamName liveStreamType resp) σ l a.
Proof.
  intros Hc Happ.
  split; [|split; [|split; [|split; [|split]]]];
    (eapply answered_actionUnseen; [exact Hc|]);
    intros σ0 r0 Hc0 E1 E2 E3.
  - destruct (StreamsPublishList_answered σ0 l L r0 b startTime endTime resp Hc0)
      as (out & σ' & Erun & Ha).
    rewrite E1, E2 in Ha. by exists out, σ'.
  - destruct (StreamsOnlineList_answered σ0 l L r0 b resp Hc0)
      as (out & σ' & Erun & Ha).
    rewrite E1, E2 in Ha. by exists out, σ'.
  - destruct (StreamsBlockList_answered σ0 l L r0 b resp Hc0)
      as (out & σ' & Erun & Ha).
    rewrite E1 in Ha. by exists out, σ'.
  - destruct (StreamsControlHistory_answered σ0 l L r0 b startTime endTime resp Hc0)
      as (out & σ' & Erun & Ha).
    rewrite E1, E2 in Ha. by exists out, σ'.
  - destruct (ForbidLiveStream_answered σ0 l L r0 b appName streamName
                liveStreamType resumeTime resp Hc0 Happ)
      as (out & σ' & Erun & Ha).
    rewrite E1 in Ha. by exists out, σ'.
  - destruct (ResumeLiveStream_answered σ0 l L r0 b appName streamName
                liveStreamType resp Hc0 Happ)
      as (out & σ' & Erun & Ha).
    rewrite E1 in Ha. by exists out, σ'.
Qed.

End action.

(** ** The further properties at sample inputs *)

Lemma X1_witness :
  ∃ (out : string * option error) (σ' : Store) (s : Sent),
    ForbidLiveStream (H := sampleWorld) 1 "room" "s" "publisher" (Some 5) "old"
      (sampleStore "cdn.example.com" "app") = Some (out, σ') ∧
    network σ' = [s] ∧
    sentAppName s = "room" ∧
    sentArgs s !! "StreamName" = Some "s" ∧
    sentArgs s !! "ResumeTime" = Some "5" ∧
    GetAppName 1 σ' = Some ("app", σ').
Proof.
  destruct (X1_ForbidLiveStream_request (H := sampleWorld)
              (sampleStore "cdn.example.com" "app") 1
              (mkLive 1 1 None DefaultVideoCenter)
              (mkRequest "" "cdn.example.com" "app" 1) ∅
              "room" "s" "publisher" (Some 5) "old"
              (sampleStore_controller "cdn.example.com" "app")
              ltac:(discriminate))
    as (out & σ' & s & Erun & _ & En & _ & Ea & _ & Es & _ & Et & _ & Eg).
  exists out, σ', s. by repeat split.
Defined.

Lemma X2_witness :
  ∃ (out : string * option error) (σ' : Store) (s : Sent),
    ResumeLiveStream (H := sampleWorld) 1 "room" "s" "publisher" "old"
      (sampleStore "cdn.example.com" "app") = Some (out, σ') ∧
    network σ' = [s] ∧
    sentAppName s = "room" ∧
    sentArgs s !! "LiveStreamType" = Some "publisher" ∧
    sentArgs s !! "ResumeTime" = None.
Proof.
  destruct (X2_ResumeLiveStream_request (H := sampleWorld)
              (sampleStore "cdn.example.com" "app") 1
              (mkLive 1 1 None DefaultVideoCenter)
              (mkRequest "" "cdn.example.com" "app" 1) ∅
              "room" "s" "publisher" "old"
              (sampleStore_controller "cdn.example.com" "app")
              ltac:(discriminate))
    as (out & σ' & s & Erun & _ & En & _ & Ea & _ & _ & Et & Eo & _).
  exists out, σ', s. split; [exact Erun|]. split; [exact En|].
  split; [exact Ea|]. split; [exact Et|].
  by rewrite Eo.
Defined.

Lemma X3_witness :
  ∃ (out : string * option error) (σ' : Store) (s : Sent),
    StreamsPublishList (H := sampleWorld) 1 1448991360 1448994960 "old"
      (sampleStore "cdn.example.com" "app") = Some (out, σ') ∧
    network σ' = [s] ∧
    sentArgs s !! "StartTime" = Some "1448991360" ∧
    sentArgs s !! "EndTime" = Some "1448994960".
Proof.
  destruct (X3_windowed_list_requests (H := sampleWorld)
              (sampleStore "cdn.example.com" "app") 1
              (mkLive 1 1 None DefaultVideoCenter)
              (mkRequest "" "cdn.example.com" "app" 1) ∅
              1448991360 1448994960 "old"
              (sampleStore_controller "cdn.example.com" "app"))
    as [(out & σ' & s & Erun & _ & En & _ & Es & Ee & _) _].
  exists out, σ', s. by repeat split.
Defined.

Lemma X4_witness :
  keepsController (H := sampleWorld)
    (StreamsOnlineList (H := sampleWorld) 1 "old")
    (sampleStore "cdn.example.com" "app") 1
    (mkLive 1 1 None DefaultVideoCenter)
    (mkRequest "" "cdn.example.com" "app" 1) ∅ ∧
  keepsController (H := sampleWorld)
    (ForbidLiveStream (H := sampleWorld) 1 "room" "s" "publisher" None "old")
    (sampleStore "cdn.example.com" "app") 1
    (mkLive 1 1 None DefaultVideoCenter)
    (mkRequest "" "cdn.example.com" "app" 1) ∅.
Proof.
  destruct (X4_methods_keep_controller (H := sampleWorld)
              (sampleStore "cdn.example.com" "app") 1
              (mkLive 1 1 None DefaultVideoCenter)
              (mkRequest "" "cdn.example.com" "app" 1) ∅
              1448991360 1448994960 "room" "s" "publisher" None "old"
              (sampleStore_controller "cdn.example.com" "app")
              ltac:(discriminate))
    as (_ & Honline & _ & _ & Hforbid & _).
  split; [exact Honline | exact Hforbid].
Defined.

Lemma X5_witness :
  ∃ (out : string * option error) (σ' : Store) (s1 : Sent),
    (ForbidLiveStream (H := sampleWorld) 1 "room" "s" "publisher" None "old";;
     StreamsOnlineList (H := sampleWorld) 1 "old")
      (sampleStore "cdn.example.com" "app") = Some (out, σ') ∧
    network σ'
    = [s1; mkSent 1 "DescribeLiveStreamsOnlineList" "cdn.example.com" "app" ∅] ∧
    sentAppName s1 = "room".
Proof.
  destruct (X5_calls_do_not_leak (H := sampleWorld)
              (sampleStore "cdn.example.com" "app") 1
              (mkLive 1 1 None DefaultVideoCenter)
              (mkRequest "" "cdn.example.com" "app" 1) ∅
              1448991360 1448994960 "room" "s" "publisher" None "old" "old"
              (sampleStore_controller "cdn.example.com" "app")
              ltac:(discriminate))
    as [_ (out & σ' & s1 & Erun & En & Ea & _)].
  exists out, σ', s1. by repeat split.
Defined.

Lemma X6_witness :
  ∃ σ' : Store,
    SetAppName 1 "room" (sampleStore "cdn.example.com" "app") = Some (1%positive, σ') ∧
    GetAppName 1 σ' = Some ("room", σ') ∧
    GetDomainName 1 σ' = Some ("cdn.example.com", σ').
Proof.
  destruct (X6_SetAppName_GetAppName (sampleStore "cdn.example.com" "app") 1
              (mkLive 1 1 None DefaultVideoCenter)
              (mkRequest "" "cdn.example.com" "app" 1) "room" eq_refl eq_refl)
    as (σ' & Erun & Ea & Ed & _).
  exists σ'. by repeat split.
Defined.

Lemma X7_witness :
  ∃ (out : string * option error) (σ' : Store) (s : Sent),
    (SetAppName 1 "room";;
     ForbidLiveStreamWithPublisher (H := sampleWorld) 1 "s" None "old")
      (sampleStore "cdn.example.com" "app") = Some (out, σ') ∧
    network σ' = [s] ∧
    sentAppName s = "room" ∧
    sentArgs s !! "LiveStreamType" = Some "publisher".
Proof.
  destruct (X7_SetAppName_then_WithPublisher (H := sampleWorld)
              (sampleStore "cdn.example.com" "app") 1
              (mkLive 1 1 None DefaultVideoCenter)
              (mkRequest "" "cdn.example.com" "app" 1) ∅ "room" "s" None "old"
              (sampleStore_controller "cdn.example.com" "app"))
    as [_ Hset].
  destruct (Hset ltac:(discriminate))
    as (out & σ' & s & Erun & _ & En & _ & Ea & _ & Et).
  exists out, σ', s. by repeat split.
Defined.

Lemma X8_witness :
  ∃ σ1 σ2 : Store,
    SetAction 1 "B" (sampleStore "cdn.example.com" "app") = Some (1%positive, σ1) ∧
    (SetAction 1 "A";; SetAction 1 "B") (sampleStore "cdn.example.com" "app")
    = Some (1%positive, σ1) ∧
    (SetAppName 1 "room";; SetAction 1 "A") (sampleStore "cdn.example.com" "app")
    = Some (1%positive, σ2) ∧
    (SetAction 1 "A";; SetAppName 1 "room") (sampleStore "cdn.example.com" "app")
    = Some (1%positive, σ2) ∧
    requests σ2 !! 1%positive = Some (mkRequest "A" "cdn.example.com" "room" 1).
Proof.
  apply (X8_template_setters_compose (sampleStore "cdn.example.com" "app") 1
           (mkLive 1 1 None DefaultVideoCenter)
           (mkRequest "" "cdn.example.com" "app" 1) "A" "B" "room");
    reflexivity.
Defined.

Lemma X9_witness :
  ∃ (s1 s2 : Stream.t) (σ1 σ2 : Store) (c1 c2 : loc),
    GetStream 1 "a" (sampleSignedStore "cdn.example.com" "app") = Some (Some s1, σ1) ∧
    GetStream 1 "b" σ1 = Some (Some s2, σ2) ∧
    Stream.streamCert s1 = Some c1 ∧ Stream.streamCert s2 = Some c2 ∧
    c1 ≠ c2 ∧ c1 ≠ 1%positive ∧ c2 ≠ 1%positive ∧
    credentials σ2 !! c1 = Some (mkStreamCredentials "k3y" 3600) ∧
    credentials σ2 !! c2 = Some (mkStreamCredentials "k3y" 3600).
Proof.
  destruct (X9_GetStream_own_credentials (sampleSignedStore "cdn.example.com" "app")
              1 1 (mkLive 1 1 (Some 1%positive) DefaultVideoCenter)
              (mkRequest "" "cdn.example.com" "app" 1)
              (mkStreamCredentials "k3y" 3600) "a" "b"
              eq_refl eq_refl eq_refl eq_refl ltac:(discriminate) ltac:(discriminate))
    as (s1 & s2 & σ1 & σ2 & c1 & c2 & E1 & E2 & Es1 & Es2 & H12 & H1 & H2 & Ev1 & Ev2 & _).
  exists s1, s2, σ1, σ2, c1, c2. by repeat split.
Defined.

Lemma X10_witness :
  ∃ (s : Stream.t) (σ' : Store),
    (SetAppName 1 "room";; SetVideoCenter 1 "live.example.com";; GetStream 1 "s")
      (sampleStore "cdn.example.com" "app") = Some (Some s, σ') ∧
    Stream.appName s = "room" ∧
    Stream.videoCenterDns s = "live.example.com" ∧
    Stream.domainName s = "cdn.example.com".
Proof.
  destruct (X10_setters_reach_streams (sampleStore "cdn.example.com" "app") 1
              (mkLive 1 1 None DefaultVideoCenter)
              (mkRequest "" "cdn.example.com" "app" 1)
              "room" "live.example.com" "s" eq_refl eq_refl)
    as (s & σ' & Erun & Ea & Ed & Edom & _).
  { intros c [=]. }
  { discriminate. }
  exists s, σ'. by repeat split.
Defined.

Lemma X11_witness :
  ∃ (s : Stream.t) (σ' : Store),
    (SetStreamCredentials 1 None;; GetStream 1 "s")
      (sampleSignedStore "cdn.example.com" "app") = Some (Some s, σ') ∧
    Stream.signOn s = false ∧ Stream.streamCert s = None.
Proof.
  destruct (X11_SetStreamCredentials_switches_signing
              (sampleSignedStore "cdn.example.com" "app") 1 1
              (mkLive 1 1 (Some 1%positive) DefaultVideoCenter)
              (mkRequest "" "cdn.example.com" "app" 1)
              (mkStreamCredentials "k3y" 3600) "s"
              eq_refl eq_refl eq_refl ltac:(discriminate))
    as [(s & σ' & Erun & Es & Ec & _) _].
  exists s, σ'. by repeat split.
Defined.

Lemma X12_witness :
  aliyun.StatusCode (aliyun.mkErrorResponse "R-1" "try later" "a.example.com"
                       "Forbidden" "denied" 403)
  = aliyun.StatusCode (aliyun.mkErrorResponse "R-1" "" "b.example.com"
                         "Forbidden" "denied" 403).
Proof.
  apply (X12_Error_read_back
           (aliyun.mkErrorResponse "R-1" "try later" "a.example.com"
              "Forbidden" "denied" 403)
           (aliyun.mkErrorResponse "R-1" "" "b.example.com"
              "Forbidden" "denied" 403));
    reflexivity.
Defined.

Lemma X13_witness :
  ∃ (l : loc) (σ' : Store) (L : Live) (r : Request),
    NewLive "id2" "secret2" "cdn2.example.com" "other" None
      (sampleStore "cdn.example.com" "app") = Some (l, σ') ∧
    GetAppName l σ' = Some ("other", σ') ∧
    GetDomainName l σ' = Some ("cdn2.example.com", σ') ∧
    l ≠ 1%positive ∧
    ∃ σ'' : Store,
      SetAppName l "room" σ' = Some (l, σ'') ∧
      GetAppName l σ'' = Some ("room", σ'') ∧
      GetAppName 1 σ'' = Some ("app", σ'').
Proof.
  destruct (X13_NewLive_own_template (sampleStore "cdn.example.com" "app")
              "id2" "secret2" "cdn2.example.com" "other" None 1
              (mkLive 1 1 None DefaultVideoCenter)
              (mkRequest "" "cdn.example.com" "app" 1) ∅ "room"
              (sampleStore_controller "cdn.example.com" "app"))
    as (l & σ' & L & r & Erun & _ & Ea & Ed & _ & _ & _ & _ & Hl & _ & _ & _ & Hset).
  exists l, σ', L, r. by repeat split.
Defined.

Lemma X14_witness :
  actionUnseen (H := sampleWorld) (StreamsOnlineList (H := sampleWorld) 1 "old")
    (sampleStore "cdn.example.com" "app") 1 "MadeUpAction".
Proof.
  destruct (X14_SetAction_never_sent (H := sampleWorld)
              (sampleStore "cdn.example.com" "app") 1
              (mkLive 1 1 None DefaultVideoCenter)
              (mkRequest "" "cdn.example.com" "app" 1) ∅ "MadeUpAction"
              1448991360 1448994960 "room" "s" "publisher" None "old"
              (sampleStore_controller "cdn.example.com" "app")
              ltac:(discriminate))
    as (_ & Honline & _).
  exact Honline.
Defined.
